(** * Low-stock alert endpoint ([part3_api_implementation.py])

    A shallow embedding of the Flask view [low_stock_alerts] and of the
    Python and SQL operations it relies on, followed by the properties of
    the alert computation.

    Modelling conventions.
    - Python [int] is [Z]; every integer column (ids, quantities,
      thresholds) is a Python [int] once loaded.
    - Python [float] is IEEE-754 binary64, taken from the standard
      library's executable specification [SpecFloat] at precision 53 and
      maximal exponent 1024.  True division, [float(int)] and
      [math.ceil] follow CPython, including the exceptions they raise.
    - A [datetime] is the count of microseconds since [datetime.min]
      (0001-01-01T00:00:00); [timedelta(days=d)] is [d] days' worth of
      microseconds.  Building a [timedelta] and subtracting it from a
      [datetime] raise [OverflowError] outside their ranges, as in
      CPython.
    - A table is the list of its rows; a query without ORDER BY returns its
      rows in nested-loop order over the joined tables.
    - Python dictionaries are [gmap]s; the set comprehension that collects
      the product ids is a [gset]. *)

From Stdlib Require Import ZArith QArith Qround Lia.
From Stdlib Require Import Floats.SpecFloat.
From stdpp Require Import gmap strings list.

Open Scope Z_scope.

(** ** Python runtime: exceptions *)

Inductive exn := ZeroDivisionError | OverflowError | ValueError.

Inductive result (A : Type) :=
  | Ok (a : A)
  | Raise (e : exn).
Arguments Ok {A} a.
Arguments Raise {A} e.

#[global] Instance result_bind : MBind result := fun A B k r =>
  match r with
  | Ok a => k a
  | Raise e => Raise e
  end.

(** ** Python runtime: floats *)

Definition dbl_prec : Z := 53.
Definition dbl_emax : Z := 1024.
Definition float := spec_float.

(** An integer as an exact (unrounded) operand of a division. *)
Definition exact_of_int (n : Z) : float :=
  match n with
  | Z0 => S754_zero false
  | Zpos p => S754_finite false p 0
  | Zneg p => S754_finite true p 0
  end.

(** [a / b] on two ints: the correctly rounded quotient;
    [ZeroDivisionError] on a zero divisor, [OverflowError] when the
    quotient does not fit a float. *)
Definition int_truediv (a b : Z) : result float :=
  if b =? 0 then Raise ZeroDivisionError
  else match SFdiv dbl_prec dbl_emax (exact_of_int a) (exact_of_int b) with
       | S754_infinity _ => Raise OverflowError
       | f => Ok f
       end.

(** [float(n)]: round to nearest even, [OverflowError] when too large. *)
Definition float_of_int (n : Z) : result float :=
  match binary_normalize dbl_prec dbl_emax n 0 false with
  | S754_infinity _ => Raise OverflowError
  | f => Ok f
  end.

(** [x / y] on two floats. *)
Definition float_truediv (x y : float) : result float :=
  match y with
  | S754_zero _ => Raise ZeroDivisionError
  | _ => Ok (SFdiv dbl_prec dbl_emax x y)
  end.

(** [n / y] with an int on the left: the int is converted first. *)
Definition int_float_truediv (n : Z) (y : float) : result float :=
  x ← float_of_int n; float_truediv x y.

(** [x > 0] on a float. *)
Definition float_gt0 (x : float) : bool :=
  SFltb (S754_zero false) x.

(** [math.ceil(x)]. *)
Definition math_ceil (x : float) : result Z :=
  match x with
  | S754_nan => Raise ValueError
  | S754_infinity _ => Raise OverflowError
  | S754_zero _ => Ok 0
  | S754_finite s m e =>
      Ok (match e with
          | Zneg k =>
              if s then - (Zpos m / 2 ^ Zpos k) else - (Zneg m / 2 ^ Zpos k)
          | _ => (if s then Zneg m else Zpos m) * 2 ^ e
          end)
  end.

(** ** Python runtime: time *)

Definition datetime := Z.

Definition timedelta_days (d : Z) : Z := d * 86400000000.

(** [timedelta.max.days] and [datetime.max], in microseconds since
    [datetime.min]. *)
Definition MAX_DELTA_DAYS : Z := 999999999.
Definition DATETIME_MAX : datetime := 3652059 * 86400000000 - 1.

(** [timedelta(days=d)]: [OverflowError] when [d] exceeds 999999999 in
    magnitude. *)
Definition timedelta (d : Z) : result Z :=
  if decide (Z.abs d <= MAX_DELTA_DAYS) then Ok (timedelta_days d)
  else Raise OverflowError.

(** [t - delta] on a datetime: [OverflowError] when the result leaves
    the years 1 to 9999. *)
Definition datetime_sub (t : datetime) (delta : Z) : result datetime :=
  if decide (0 <= t - delta <= DATETIME_MAX) then Ok (t - delta)
  else Raise OverflowError.

(** [now - timedelta(days=d)] *)
Definition days_before (now : datetime) (d : Z) : result datetime :=
  delta ← timedelta d; datetime_sub now delta.

(** ** Configuration

    The two module-level constants of the source. *)

Record Config := {
  SALES_AVG_WINDOW_DAYS : Z;
  SALES_ACTIVITY_WINDOW_DAYS : Z
}.

Definition source_config : Config :=
  {| SALES_AVG_WINDOW_DAYS := 30; SALES_ACTIVITY_WINDOW_DAYS := 60 |}.

(** ** Data model: the tables the view reads *)

Record Company := { company_id : Z }.

Record Warehouse := {
  wh_id : Z;
  wh_name : string;
  wh_company_id : Z
}.

Record Product := {
  prod_id : Z;
  prod_name : string;
  prod_sku : string
}.

Record Inventory := {
  inv_product_id : Z;
  inv_warehouse_id : Z;
  inv_quantity : Z;
  inv_threshold : Z
}.

Record Order := {
  order_id : Z;
  order_company_id : Z
}.

Record OrderItem := {
  oi_order_id : Z;
  oi_product_id : Z;
  oi_quantity : Z;
  oi_created_at : datetime
}.

Record Supplier := {
  sup_id : Z;
  sup_name : string;
  sup_contact_email : string
}.

Record ProductSupplier := {
  ps_product_id : Z;
  ps_supplier_id : Z;
  ps_is_primary : bool
}.

Record Db := {
  companies : list Company;
  warehouses : list Warehouse;
  products : list Product;
  inventories : list Inventory;
  orders : list Order;
  order_items : list OrderItem;
  suppliers : list Supplier;
  product_suppliers : list ProductSupplier
}.

(** ** Response shapes *)

Record SupplierEntry := {
  se_id : Z;
  se_name : string;
  se_contact_email : string;
  se_is_primary : bool
}.

Record SupplierInfo := {
  si_id : Z;
  si_name : string;
  si_contact_email : string
}.

Record Alert := {
  product_id : Z;
  product_name : string;
  sku : string;
  warehouse_id : Z;
  warehouse_name : string;
  current_stock : Z;
  threshold : Z;
  days_until_stockout : option Z;
  supplier : option SupplierInfo
}.

Inductive json_body :=
  | JError (error : string)
  | JAlerts (alerts : list Alert) (total_alerts : Z).

Definition response : Type := json_body * Z.

(** ** Queries *)

(** [Company.query.get(company_id)] *)
Definition Company_get (db : Db) (cid : Z) : option Company :=
  head (filter (fun c => company_id c = cid) (companies db)).

Definition candidate_row : Type := Inventory * Product * Warehouse.

(** Step 1: inventories joined with their warehouse and product, kept when
    the warehouse belongs to the company and [quantity <= threshold]. *)
Definition candidate_rows (db : Db) (cid : Z) : list candidate_row :=
  inv ← inventories db;
  wh ← filter (fun w => inv_warehouse_id inv = wh_id w) (warehouses db);
  prod ← filter (fun p => inv_product_id inv = prod_id p) (products db);
  if decide (wh_company_id wh = cid /\ inv_quantity inv <= inv_threshold inv)
  then [(inv, prod, wh)] else [].

(** [list({prod.id for _, prod, _ in candidate_rows})] *)
Definition product_ids (rows : list candidate_row) : list Z :=
  elements (list_to_set ((fun r => prod_id r.1.2) <$> rows) : gset Z).

Definition sum_Z (l : list Z) : Z := foldr Z.add 0 l.

(** The order items a sales aggregate ranges over: joined with their
    order, of the company, of a listed product, created at or after
    [since]. *)
Definition sold_items (db : Db) (cid : Z) (ids : list Z) (since : datetime)
  : list OrderItem :=
  oi ← order_items db;
  o ← filter (fun o => oi_order_id oi = order_id o) (orders db);
  if decide (order_company_id o = cid /\ oi_product_id oi ∈ ids
             /\ since <= oi_created_at oi)
  then [oi] else [].

(** Steps 2 and 3: [GROUP BY product_id] with [coalesce(sum(quantity), 0)];
    one row per product that has at least one item. *)
Definition sales_since (db : Db) (cid : Z) (ids : list Z) (since : datetime)
  : list (Z * Z) :=
  let items := sold_items db cid ids since in
  (fun pid =>
     (pid, sum_Z (oi_quantity <$> filter (fun oi => oi_product_id oi = pid) items)))
  <$> remove_dups (oi_product_id <$> items).

(** [{r.product_id: r.qty for r in rows}] *)
Definition dict_of_rows (rows : list (Z * Z)) : gmap Z Z :=
  foldl (fun m r => <[r.1 := r.2]> m) ∅ rows.

(** [d.get(k, 0)] *)
Definition dict_get0 (d : gmap Z Z) (k : Z) : Z := default 0 (d !! k).

Definition supplier_row : Type := Z * Z * string * string * bool.

(** Step 4: product-supplier links joined with their supplier. *)
Definition suppliers_q (db : Db) (ids : list Z) : list supplier_row :=
  ps ← product_suppliers db;
  s ← filter (fun s => ps_supplier_id ps = sup_id s) (suppliers db);
  if decide (ps_product_id ps ∈ ids)
  then [(ps_product_id ps, sup_id s, sup_name s, sup_contact_email s,
         ps_is_primary ps)]
  else [].

(** ** Supplier map: product id to best supplier, primary preferred *)

Definition entry_of_row (r : supplier_row) : SupplierEntry :=
  let '(_, sup_id, sup_name, sup_email, is_primary) := r in
  {| se_id := sup_id; se_name := sup_name; se_contact_email := sup_email;
     se_is_primary := is_primary |}.

Definition row_prod_id (r : supplier_row) : Z := r.1.1.1.1.
Definition row_is_primary (r : supplier_row) : bool := r.2.

Definition supplier_map_step (supplier_map : gmap Z SupplierEntry)
    (r : supplier_row) : gmap Z SupplierEntry :=
  match supplier_map !! row_prod_id r with
  | None => <[row_prod_id r := entry_of_row r]> supplier_map
  | Some entry =>
      if row_is_primary r && negb (se_is_primary entry)
      then <[row_prod_id r := entry_of_row r]> supplier_map
      else supplier_map
  end.

Definition build_supplier_map (rows : list supplier_row)
  : gmap Z SupplierEntry :=
  foldl supplier_map_step ∅ rows.

Definition supplier_info_of (s : SupplierEntry) : SupplierInfo :=
  {| si_id := se_id s; si_name := se_name s;
     si_contact_email := se_contact_email s |}.

(** ** Stockout projection *)

Definition avg_daily_sales (cfg : Config) (total_sold_in_avg : Z)
  : result float :=
  int_truediv total_sold_in_avg (Z.max (SALES_AVG_WINDOW_DAYS cfg) 1).

Definition project_days (cfg : Config) (quantity total_sold_in_avg : Z)
  : result (option Z) :=
  avg ← avg_daily_sales cfg total_sold_in_avg;
  if float_gt0 avg then
    d ← int_float_truediv quantity avg;
    c ← math_ceil d;
    Ok (Some c)
  else Ok None.

(** ** The alert loop *)

Definition make_alert (row : candidate_row) (days : option Z)
    (supplier_info : option SupplierInfo) : Alert :=
  let '(inv, prod, wh) := row in
  {| product_id := prod_id prod;
     product_name := prod_name prod;
     sku := prod_sku prod;
     warehouse_id := wh_id wh;
     warehouse_name := wh_name wh;
     current_stock := inv_quantity inv;
     threshold := inv_threshold inv;
     days_until_stockout := days;
     supplier := supplier_info |}.

Fixpoint alerts_loop (cfg : Config)
    (recent_sales_map avg_sales_map : gmap Z Z)
    (supplier_map : gmap Z SupplierEntry)
    (rows : list candidate_row) (alerts : list Alert)
  : result (list Alert) :=
  match rows with
  | [] => Ok alerts
  | row :: rest =>
      let pid := prod_id row.1.2 in
      let recent_qty := dict_get0 recent_sales_map pid in
      if recent_qty =? 0 then
        alerts_loop cfg recent_sales_map avg_sales_map supplier_map rest alerts
      else
        let total_sold_in_avg := dict_get0 avg_sales_map pid in
        days ← project_days cfg (inv_quantity row.1.1) total_sold_in_avg;
        let supplier_info := supplier_info_of <$> supplier_map !! pid in
        alerts_loop cfg recent_sales_map avg_sales_map supplier_map rest
          (alerts ++ [make_alert row days supplier_info])
  end.

(** ** The view *)

(** The starts of the two windows, as instants: the values of
    [now - timedelta(days=...)] when Python computes them.  The view
    obtains them through [days_before], which raises where Python does. *)
Definition avg_since (cfg : Config) (now : datetime) : datetime :=
  now - timedelta_days (SALES_AVG_WINDOW_DAYS cfg).

Definition activity_since (cfg : Config) (now : datetime) : datetime :=
  now - timedelta_days (SALES_ACTIVITY_WINDOW_DAYS cfg).

(** Everything after the product ids are collected; [since_avg] and
    [since_activity] are the window starts computed on entry and [ids]
    is the list the set of product ids was turned into. *)
Definition alerts_for (cfg : Config) (db : Db) (cid : Z)
    (since_avg since_activity : datetime)
    (rows : list candidate_row) (ids : list Z) : result response :=
  let recent_sales_map :=
    dict_of_rows (sales_since db cid ids since_activity) in
  let avg_sales_map :=
    dict_of_rows (sales_since db cid ids since_avg) in
  let supplier_map := build_supplier_map (suppliers_q db ids) in
  alerts ← alerts_loop cfg recent_sales_map avg_sales_map supplier_map rows [];
  Ok (JAlerts alerts (Z.of_nat (length alerts)), 200).

(** The view.  [now] is the reading of the clock and [listing] the order
    in which the set of product ids is turned into a list; the source
    relies on the iteration order of a Python set. *)
Definition low_stock_alerts_with (listing : list candidate_row -> list Z)
    (cfg : Config) (db : Db) (now : datetime) (cid : Z) : result response :=
  match Company_get db cid with
  | None => Ok (JError "Company not found", 404)
  | Some _ =>
      since_avg ← days_before now (SALES_AVG_WINDOW_DAYS cfg);
      since_activity ← days_before now (SALES_ACTIVITY_WINDOW_DAYS cfg);
      let rows := candidate_rows db cid in
      match rows with
      | [] => Ok (JAlerts [] 0, 200)
      | _ => alerts_for cfg db cid since_avg since_activity rows (listing rows)
      end
  end.

Definition low_stock_alerts : Config -> Db -> datetime -> Z -> result response :=
  low_stock_alerts_with product_ids.

(** ** Notions the properties are stated with *)

(** The smallest exponent of binary64 and the magnitude of a finite float:
    a float with mantissa [m] and exponent [e] has its absolute value in
    [2 ^ (mag m e - 1), 2 ^ mag m e). *)
Definition dbl_emin : Z := -1074.

Definition mag (m : positive) (e : Z) : Z := Zdigits2 (Zpos m) + e.

(** The order items of a company created at or after [since], whatever
    their product. *)
Definition window_items (db : Db) (cid : Z) (since : datetime)
  : list OrderItem :=
  oi ← order_items db;
  o ← filter (fun o => oi_order_id oi = order_id o) (orders db);
  if decide (order_company_id o = cid /\ since <= oi_created_at oi)
  then [oi] else [].

(** Summed sold quantity of one product in the window starting at [since]. *)
Definition window_sales (db : Db) (cid : Z) (since : datetime) (pid : Z) : Z :=
  sum_Z (oi_quantity <$>
         filter (fun oi => oi_product_id oi = pid) (window_items db cid since)).

(** The supplier links of one product, in fetch order. *)
Definition links_of (pid : Z) (rows : list supplier_row) : list supplier_row :=
  filter (fun r => row_prod_id r = pid) rows.

(** All product-supplier links joined with their supplier, whatever their
    product. *)
Definition all_links (db : Db) : list supplier_row :=
  ps ← product_suppliers db;
  s ← filter (fun s => ps_supplier_id ps = sup_id s) (suppliers db);
  [(ps_product_id ps, sup_id s, sup_name s, sup_contact_email s,
    ps_is_primary ps)].

(** The link the resolution settles on: the first primary link when there
    is one, the first link otherwise. *)
Definition preferred_link (links : list supplier_row) : option supplier_row :=
  match head (filter (fun r => row_is_primary r = true) links) with
  | Some r => Some r
  | None => head links
  end.

Definition preferred_supplier (db : Db) (pid : Z) : option SupplierInfo :=
  (fun r => supplier_info_of (entry_of_row r))
  <$> preferred_link (links_of pid (all_links db)).

(** A listing of the product-id set: exactly the product ids of the rows. *)
Definition valid_listing (listing : list candidate_row -> list Z) : Prop :=
  forall rows pid,
    pid ∈ listing rows <-> exists row, row ∈ rows /\ prod_id row.1.2 = pid.

(** The activity gate: the product sold something in the activity window. *)
Definition gate (cfg : Config) (db : Db) (now : datetime) (cid : Z)
    (row : candidate_row) : Prop :=
  window_sales db cid (activity_since cfg now) (prod_id row.1.2) <> 0.

#[global] Instance gate_dec cfg db now cid row :
  Decision (gate cfg db now cid row) :=
  decide (window_sales db cid (activity_since cfg now) (prod_id row.1.2) <> 0).

(** The alert a candidate row gives rise to. *)
Definition alert_of (cfg : Config) (db : Db) (now : datetime) (cid : Z)
    (row : candidate_row) (a : Alert) : Prop :=
  exists days,
    project_days cfg (inv_quantity row.1.1)
      (window_sales db cid (avg_since cfg now) (prod_id row.1.2)) = Ok days
    /\ a = make_alert row days (preferred_supplier db (prod_id row.1.2)).

(** Both window starts can be computed: each window is a valid
    [timedelta] and the start is a valid [datetime]. *)
Definition windows_in_range (cfg : Config) (now : datetime) : Prop :=
  (Z.abs (SALES_AVG_WINDOW_DAYS cfg) <= MAX_DELTA_DAYS
   /\ 0 <= avg_since cfg now <= DATETIME_MAX)
  /\ (Z.abs (SALES_ACTIVITY_WINDOW_DAYS cfg) <= MAX_DELTA_DAYS
      /\ 0 <= activity_since cfg now <= DATETIME_MAX).

#[global] Instance windows_in_range_dec cfg now :
  Decision (windows_in_range cfg now).
Proof. unfold windows_in_range. apply _. Defined.

(** A column value or aggregate that fits a signed 64-bit integer. *)
Definition int64 (n : Z) : Prop := - 2 ^ 63 <= n < 2 ^ 63.

(** The three dictionaries hold, for the product of a row, what the store
    holds. *)
Definition dicts_faithful (cfg : Config) (db : Db) (now : datetime) (cid : Z)
    (recent_sales_map avg_sales_map : gmap Z Z)
    (supplier_map : gmap Z SupplierEntry) (row : candidate_row) : Prop :=
  let pid := prod_id row.1.2 in
  dict_get0 recent_sales_map pid
    = window_sales db cid (activity_since cfg now) pid
  /\ dict_get0 avg_sales_map pid
     = window_sales db cid (avg_since cfg now) pid
  /\ supplier_info_of <$> supplier_map !! pid = preferred_supplier db pid.

(** Every integer the projection reads fits 64 bits: the window, the
    stock levels and the averaging-window totals. *)
Definition db_int64 (cfg : Config) (db : Db) (now : datetime) (cid : Z) : Prop :=
  int64 (SALES_AVG_WINDOW_DAYS cfg)
  /\ (forall inv, inv ∈ inventories db -> int64 (inv_quantity inv))
  /\ (forall pid, int64 (window_sales db cid (avg_since cfg now) pid)).

(** The exact reading of the projection formula, in rational arithmetic:
    the ceiling of [stock / (total / window)]. *)
Definition exact_ceiling_days (stock total window : Z) : Z :=
  Qceiling (inject_Z stock / (inject_Z total / inject_Z window)).

(** ** Worked scenarios *)

Definition day : Z := 86400000000.

Definition demo_db : Db :=
  {| companies := [ {| company_id := 1 |} ];
     warehouses := [ {| wh_id := 10; wh_name := "W1"; wh_company_id := 1 |};
                     {| wh_id := 11; wh_name := "W2"; wh_company_id := 1 |} ];
     products := [ {| prod_id := 100; prod_name := "P1"; prod_sku := "SKU-1" |};
                   {| prod_id := 101; prod_name := "P2"; prod_sku := "SKU-2" |};
                   {| prod_id := 102; prod_name := "P3"; prod_sku := "SKU-3" |} ];
     inventories :=
       [ {| inv_product_id := 100; inv_warehouse_id := 10;
            inv_quantity := 5; inv_threshold := 10 |};
         {| inv_product_id := 101; inv_warehouse_id := 10;
            inv_quantity := 3; inv_threshold := 3 |};
         {| inv_product_id := 102; inv_warehouse_id := 10;
            inv_quantity := 4; inv_threshold := 9 |};
         {| inv_product_id := 100; inv_warehouse_id := 11;
            inv_quantity := 10; inv_threshold := 10 |} ];
     orders := [ {| order_id := 1000; order_company_id := 1 |} ];
     order_items :=
       [ {| oi_order_id := 1000; oi_product_id := 100; oi_quantity := 20;
            oi_created_at := 90 * day |};
         {| oi_order_id := 1000; oi_product_id := 102; oi_quantity := 7;
            oi_created_at := 55 * day |} ];
     suppliers := [ {| sup_id := 7; sup_name := "Acme";
                       sup_contact_email := "sales@acme.test" |};
                    {| sup_id := 8; sup_name := "Bolt";
                       sup_contact_email := "hi@bolt.test" |} ];
     product_suppliers :=
       [ {| ps_product_id := 102; ps_supplier_id := 7; ps_is_primary := false |};
         {| ps_product_id := 102; ps_supplier_id := 8; ps_is_primary := true |} ]
  |}.

(** The alerts of [demo_db] for company 1 on day 100: product 101 sold
    nothing and is left out, product 102 sold only outside the averaging
    window, product 100 is low in both warehouses. *)
Definition demo_alert_p1_w1 : Alert :=
  {| product_id := 100; product_name := "P1"; sku := "SKU-1";
     warehouse_id := 10; warehouse_name := "W1";
     current_stock := 5; threshold := 10;
     days_until_stockout := Some 8; supplier := None |}.

Definition demo_alert_p3_w1 : Alert :=
  {| product_id := 102; product_name := "P3"; sku := "SKU-3";
     warehouse_id := 10; warehouse_name := "W1";
     current_stock := 4; threshold := 9;
     days_until_stockout := None;
     supplier := Some {| si_id := 8; si_name := "Bolt";
                         si_contact_email := "hi@bolt.test" |} |}.

Definition demo_alert_p1_w2 : Alert :=
  {| product_id := 100; product_name := "P1"; sku := "SKU-1";
     warehouse_id := 11; warehouse_name := "W2";
     current_stock := 10; threshold := 10;
     days_until_stockout := Some 15; supplier := None |}.

Definition demo_alerts : list Alert :=
  [demo_alert_p1_w1; demo_alert_p3_w1; demo_alert_p1_w2].

(** A store with one company, one warehouse and one product, whose only
    order line was created on day 90. *)
Definition one_product_db (stock thresh sold : Z) : Db :=
  {| companies := [ {| company_id := 1 |} ];
     warehouses := [ {| wh_id := 10; wh_name := "W1"; wh_company_id := 1 |} ];
     products := [ {| prod_id := 100; prod_name := "P1"; prod_sku := "SKU-1" |} ];
     inventories :=
       [ {| inv_product_id := 100; inv_warehouse_id := 10;
            inv_quantity := stock; inv_threshold := thresh |} ];
     orders := [ {| order_id := 1000; order_company_id := 1 |} ];
     order_items :=
       [ {| oi_order_id := 1000; oi_product_id := 100; oi_quantity := sold;
            oi_created_at := 90 * day |} ];
     suppliers := [];
     product_suppliers := [] |}.

Definition one_product_alert (stock thresh : Z) (days : option Z) : Alert :=
  {| product_id := 100; product_name := "P1"; sku := "SKU-1";
     warehouse_id := 10; warehouse_name := "W1";
     current_stock := stock; threshold := thresh;
     days_until_stockout := days; supplier := None |}.

(** Three links of product 102 and one of product 100, in fetch order. *)
Definition demo_links : list supplier_row :=
  [ (102, 7, "Acme", "sales@acme.test", false);
    (100, 9, "Core", "core@core.test", false);
    (102, 8, "Bolt", "hi@bolt.test", true);
    (102, 6, "Dyn", "dyn@dyn.test", true) ].

(** ** Stores that differ in their order lines *)

Definition set_order_items (db : Db) (items : list OrderItem) : Db :=
  {| companies := companies db;
     warehouses := warehouses db;
     products := products db;
     inventories := inventories db;
     orders := orders db;
     order_items := items;
     suppliers := suppliers db;
     product_suppliers := product_suppliers db |}.

(** A product-supplier link whose supplier row exists. *)
Definition linked (db : Db) (pid : Z) (ps : ProductSupplier) (s : Supplier)
  : Prop :=
  ps ∈ product_suppliers db /\ s ∈ suppliers db
  /\ ps_product_id ps = pid /\ ps_supplier_id ps = sup_id s.

Definition info_of_supplier (s : Supplier) : SupplierInfo :=
  {| si_id := sup_id s; si_name := sup_name s;
     si_contact_email := sup_contact_email s |}.

(** An order line sold by the company: its order is one of the company's. *)
Definition sold_by (db : Db) (cid : Z) (oi : OrderItem) : Prop :=
  exists o, o ∈ orders db /\ oi_order_id oi = order_id o
            /\ order_company_id o = cid.

(** A second store for the scenarios: [demo_db] with its order lines in
    the opposite order, and with a line of another company's order. *)
Definition demo_orders_db : Db :=
  {| companies := companies demo_db;
     warehouses := warehouses demo_db;
     products := products demo_db;
     inventories := inventories demo_db;
     orders := [ {| order_id := 1000; order_company_id := 1 |};
                 {| order_id := 2000; order_company_id := 2 |} ];
     order_items := order_items demo_db;
     suppliers := suppliers demo_db;
     product_suppliers := product_suppliers demo_db |}.

Definition foreign_item : OrderItem :=
  {| oi_order_id := 2000; oi_product_id := 100; oi_quantity := 500;
     oi_created_at := 95 * day |}.

(** * Properties *)

(** ** Binary64 rounding and division *)

Lemma digits2_pos_size p : digits2_pos p = Pos.size p.
Proof. induction p; simpl; congruence. Qed.

Lemma Zdigits2_log2 m : 0 < m -> Zdigits2 m = Z.log2 m + 1.
Proof.
  destruct m as [|p|p]; try lia. intros _. simpl.
  rewrite digits2_pos_size. destruct p; simpl; lia.
Qed.

Lemma Zdigits2_bounds m :
  0 < m -> 2 ^ (Zdigits2 m - 1) <= m < 2 ^ Zdigits2 m.
Proof.
  intros Hm. rewrite Zdigits2_log2 by done.
  replace (Z.log2 m + 1 - 1) with (Z.log2 m) by lia.
  replace (Z.log2 m + 1) with (Z.succ (Z.log2 m)) by lia.
  by apply Z.log2_spec.
Qed.

Lemma Zdigits2_pos m : 0 < m -> 1 <= Zdigits2 m.
Proof.
  intros Hm. rewrite Zdigits2_log2 by done.
  pose proof (Z.log2_nonneg m). lia.
Qed.

Lemma Zdigits2_unique m d :
  2 ^ (d - 1) <= m < 2 ^ d -> 1 <= d -> Zdigits2 m = d.
Proof.
  intros Hb Hd.
  assert (0 < m) by (pose proof (Z.pow_pos_nonneg 2 (d - 1)); lia).
  rewrite Zdigits2_log2 by done.
  rewrite (Z.log2_unique m (d - 1)); [lia | lia |].
  replace (Z.succ (d - 1)) with d by lia. done.
Qed.

Lemma Zdigits2_shiftr m n :
  0 < m -> 0 <= n < Zdigits2 m ->
  1 <= m / 2 ^ n /\ Zdigits2 (m / 2 ^ n) = Zdigits2 m - n.
Proof.
  intros Hm Hn.
  pose proof (Zdigits2_bounds m Hm) as [Hlo Hhi].
  assert (Hp : 0 < 2 ^ n) by (apply Z.pow_pos_nonneg; lia).
  assert (Hlo' : 2 ^ (Zdigits2 m - n - 1) <= m / 2 ^ n).
  { apply Z.div_le_lower_bound; [done|].
    rewrite <- Z.pow_add_r by lia.
    replace (n + (Zdigits2 m - n - 1)) with (Zdigits2 m - 1) by lia. done. }
  assert (Hhi' : m / 2 ^ n < 2 ^ (Zdigits2 m - n)).
  { apply Z.div_lt_upper_bound; [done|].
    rewrite <- Z.pow_add_r by lia.
    replace (n + (Zdigits2 m - n)) with (Zdigits2 m) by lia. done. }
  split.
  - assert (0 < 2 ^ (Zdigits2 m - n - 1)) by (apply Z.pow_pos_nonneg; lia). lia.
  - apply Zdigits2_unique; [|lia]. by split.
Qed.

Lemma Zdigits2_succ m :
  0 < m -> Zdigits2 m <= Zdigits2 (m + 1) <= Zdigits2 m + 1.
Proof.
  intros Hm. rewrite !Zdigits2_log2 by lia.
  pose proof (Z.log2_le_mono m (m + 1)).
  pose proof (Z.log2_succ_le m).
  replace (Z.succ m) with (m + 1) in * by lia. lia.
Qed.

Lemma shr_1_m r : 0 <= shr_m r -> shr_m (shr_1 r) = shr_m r / 2.
Proof.
  destruct r as [m r s]. simpl. intros Hm.
  destruct m as [|[p|p|]|p]; simpl; try lia.
  - done.
  - apply (Z.div_unique (Z.pos p~1) 2 (Z.pos p) 1); lia.
  - apply (Z.div_unique (Z.pos p~0) 2 (Z.pos p) 0); lia.
  - done.
Qed.

Lemma pow2_xI p : 2 ^ Z.pos p~1 = 2 * (2 ^ Z.pos p * 2 ^ Z.pos p).
Proof.
  assert (Z.pos p~1 = 1 + (Z.pos p + Z.pos p)) as -> by lia.
  by rewrite !Z.pow_add_r by lia.
Qed.

Lemma pow2_xO p : 2 ^ Z.pos p~0 = 2 ^ Z.pos p * 2 ^ Z.pos p.
Proof.
  assert (Z.pos p~0 = Z.pos p + Z.pos p) as -> by lia.
  by rewrite !Z.pow_add_r by lia.
Qed.

Lemma iter_shr_1_m p r :
  0 <= shr_m r -> shr_m (SpecFloat.iter_pos shr_1 p r) = shr_m r / 2 ^ Zpos p.
Proof.
  revert r. induction p as [p IH|p IH|]; intros r Hr; simpl SpecFloat.iter_pos.
  - assert (H1 : 0 <= shr_m (shr_1 r)).
    { rewrite shr_1_m by done. apply Z.div_pos; lia. }
    assert (H2 : 0 <= shr_m (SpecFloat.iter_pos shr_1 p (shr_1 r))).
    { rewrite IH by done. apply Z.div_pos; [done|]. apply Z.pow_pos_nonneg; lia. }
    rewrite IH, IH, shr_1_m by done.
    assert (0 < 2 ^ Z.pos p) by (apply Z.pow_pos_nonneg; lia).
    rewrite !Z.div_div by lia.
    rewrite pow2_xI. f_equal; lia.
  - assert (H2 : 0 <= shr_m (SpecFloat.iter_pos shr_1 p r)).
    { rewrite IH by done. apply Z.div_pos; [done|]. apply Z.pow_pos_nonneg; lia. }
    rewrite IH, IH by done.
    assert (0 < 2 ^ Z.pos p) by (apply Z.pow_pos_nonneg; lia).
    rewrite !Z.div_div by lia.
    by rewrite pow2_xO.
  - by rewrite shr_1_m.
Qed.

Lemma shr_record_of_loc_m m l : shr_m (shr_record_of_loc m l) = m.
Proof. by destruct l as [|[]]. Qed.

Lemma shr_spec m l e n :
  0 <= m ->
  shr_m (shr (shr_record_of_loc m l) e n).1 = m / 2 ^ Z.max n 0
  /\ (shr (shr_record_of_loc m l) e n).2 = e + Z.max n 0.
Proof.
  intros Hm. destruct n as [|p|p]; simpl.
  - rewrite shr_record_of_loc_m, Z.div_1_r. lia.
  - rewrite iter_shr_1_m by (by rewrite shr_record_of_loc_m).
    rewrite shr_record_of_loc_m. split; [done | lia].
  - rewrite shr_record_of_loc_m, Z.div_1_r. lia.
Qed.


Lemma dbl_fexp e : fexp dbl_prec dbl_emax e = Z.max (e - 53) dbl_emin.
Proof. reflexivity. Qed.

Lemma Zdigits2_ge m a : 0 <= a -> 2 ^ a <= m -> a + 1 <= Zdigits2 m.
Proof.
  intros Ha Hm.
  assert (0 < m) by (pose proof (Z.pow_pos_nonneg 2 a); lia).
  rewrite Zdigits2_log2 by done.
  apply Z.log2_le_pow2 in Hm; lia.
Qed.

Lemma Zdigits2_le m b : 0 < m -> m < 2 ^ b -> Zdigits2 m <= b.
Proof.
  intros H0 Hm. rewrite Zdigits2_log2 by done.
  apply Z.log2_lt_pow2 in Hm; lia.
Qed.

Lemma shr_fexp_spec m e l :
  1 <= m -> dbl_emin < Zdigits2 m + e ->
  1 <= shr_m (shr_fexp dbl_prec dbl_emax m e l).1
  /\ Zdigits2 (shr_m (shr_fexp dbl_prec dbl_emax m e l).1)
      + (shr_fexp dbl_prec dbl_emax m e l).2 = Zdigits2 m + e.
Proof.
  intros Hm Hmag. unfold shr_fexp. rewrite dbl_fexp.
  set (n := Z.max (Zdigits2 m + e - 53) dbl_emin - e).
  pose proof (Zdigits2_pos m).
  destruct (shr_spec m l e n) as [-> ->]; [lia|].
  destruct (Zdigits2_shiftr m (Z.max n 0)) as [H1 H2]; [lia|lia|].
  rewrite H2. lia.
Qed.

Lemma round_nearest_even_bounds m l :
  m <= round_nearest_even m l <= m + 1.
Proof.
  unfold round_nearest_even. destruct l as [|[]]; try lia.
  destruct (Z.even m); lia.
Qed.

(** Rounding a positive mantissa that lies above the underflow threshold:
    the result keeps the sign and (up to one binade) the magnitude. *)
Lemma binary_round_aux_spec sx mz ez lz :
  1 <= mz -> dbl_emin < Zdigits2 mz + ez ->
  match binary_round_aux dbl_prec dbl_emax sx mz ez lz with
  | S754_finite s m e =>
      s = sx /\ Zdigits2 mz + ez <= Zdigits2 (Zpos m) + e <= Zdigits2 mz + ez + 1
  | S754_infinity s => s = sx /\ 971 < Zdigits2 mz + ez
  | _ => False
  end.
Proof.
  intros Hm Hmag. unfold binary_round_aux.
  destruct (shr_fexp_spec mz ez lz Hm Hmag) as [H1 H2].
  destruct (shr_fexp dbl_prec dbl_emax mz ez lz) as [mrs' e']. simpl in H1, H2.
  set (m1 := round_nearest_even (shr_m mrs') (loc_of_shr_record mrs')).
  pose proof (round_nearest_even_bounds (shr_m mrs') (loc_of_shr_record mrs')) as Hr.
  fold m1 in Hr.
  assert (Hd : Zdigits2 (shr_m mrs') <= Zdigits2 m1 <= Zdigits2 (shr_m mrs') + 1).
  { assert (m1 = shr_m mrs' \/ m1 = shr_m mrs' + 1) as [->| ->] by lia; [lia|].
    apply Zdigits2_succ. lia. }
  destruct (shr_fexp_spec m1 e' loc_Exact) as [H3 H4]; [lia|lia|].
  destruct (shr_fexp dbl_prec dbl_emax m1 e' loc_Exact) as [mrs'' e'']. simpl in H3, H4.
  destruct (shr_m mrs'') as [|m|m] eqn:Hm''; try lia.
  pose proof (Zdigits2_pos (Z.pos m)).
  destruct (Z.leb_spec e'' (dbl_emax - dbl_prec)) as [Hle|Hgt].
  - split; [done|]. lia.
  - split; [done|]. unfold dbl_emax, dbl_prec in Hgt. lia.
Qed.

(** Without any side condition rounding never flips the sign. *)
Lemma binary_round_aux_sign sx mz ez lz :
  match binary_round_aux dbl_prec dbl_emax sx mz ez lz with
  | S754_finite s _ _ | S754_infinity s | S754_zero s => s = sx
  | S754_nan => True
  end.
Proof.
  unfold binary_round_aux.
  destruct (shr_fexp dbl_prec dbl_emax mz ez lz) as [mrs' e'].
  destruct (shr_fexp _ _ _ e' loc_Exact) as [mrs'' e''].
  destruct (shr_m mrs''); [done| |done].
  by destruct (_ <=? _).
Qed.

Lemma Z_div_eucl_div a b : Z.div_eucl a b = (a / b, a mod b).
Proof. unfold Z.div, Z.modulo. by destruct (Z.div_eucl a b). Qed.

Lemma SFdiv_core_binary_spec m1 e1 m2 e2 :
  dbl_emin + 53 <= (Zdigits2 (Zpos m1) + e1) - (Zdigits2 (Zpos m2) + e2) ->
  let '(q, e', _) := SFdiv_core_binary dbl_prec dbl_emax (Zpos m1) e1 (Zpos m2) e2 in
  1 <= q /\
  (Zdigits2 (Zpos m1) + e1) - (Zdigits2 (Zpos m2) + e2) <= Zdigits2 q + e'
    <= (Zdigits2 (Zpos m1) + e1) - (Zdigits2 (Zpos m2) + e2) + 1.
Proof.
  intros Hmag. unfold SFdiv_core_binary. rewrite dbl_fexp.
  set (d1 := Zdigits2 (Zpos m1)) in *. set (d2 := Zdigits2 (Zpos m2)) in *.
  set (e' := Z.min (Z.max (d1 + e1 - (d2 + e2) - 53) dbl_emin) (e1 - e2)).
  set (s := e1 - e2 - e').
  assert (Hs : 0 <= s /\ d2 - d1 + 53 <= s) by lia.
  set (m' := match s with Z.pos _ => Z.shiftl (Z.pos m1) s | 0 => Z.pos m1 | Z.neg _ => 0 end).
  assert (Hm' : m' = Z.pos m1 * 2 ^ s).
  { unfold m'. destruct s eqn:Es; try lia. by rewrite Z.shiftl_mul_pow2. }
  rewrite Z_div_eucl_div, Hm'.
  pose proof (Zdigits2_bounds (Z.pos m1) eq_refl) as [L1 U1].
  pose proof (Zdigits2_bounds (Z.pos m2) eq_refl) as [L2 U2].
  pose proof (Zdigits2_pos (Z.pos m1) eq_refl).
  pose proof (Zdigits2_pos (Z.pos m2) eq_refl).
  fold d1 in L1, U1, H. fold d2 in L2, U2, H0.
  assert (P2 : 0 < 2 ^ s) by (apply Z.pow_pos_nonneg; lia).
  set (k := d1 + s - d2).
  assert (Hlo : 2 ^ (k - 1) <= Z.pos m1 * 2 ^ s / Z.pos m2).
  { apply Z.div_le_lower_bound; [lia|].
    apply Z.le_trans with (2 ^ d2 * 2 ^ (k - 1)).
    - apply Z.mul_le_mono_nonneg_r; [apply Z.pow_nonneg|]; lia.
    - rewrite <- Z.pow_add_r by lia.
      replace (d2 + (k - 1)) with ((d1 - 1) + s) by lia.
      rewrite Z.pow_add_r by lia.
      apply Z.mul_le_mono_nonneg_r; lia. }
  assert (Hhi : Z.pos m1 * 2 ^ s / Z.pos m2 < 2 ^ (k + 1)).
  { apply Z.div_lt_upper_bound; [lia|].
    apply Z.lt_le_trans with (2 ^ d1 * 2 ^ s).
    - apply Z.mul_lt_mono_pos_r; lia.
    - rewrite <- Z.pow_add_r by lia.
      replace (d1 + s) with ((d2 - 1) + (k + 1)) by lia.
      rewrite Z.pow_add_r by lia.
      apply Z.mul_le_mono_nonneg_r; [apply Z.pow_nonneg|]; lia. }
  assert (0 < 2 ^ (k - 1)) by (apply Z.pow_pos_nonneg; lia).
  set (q := Z.pos m1 * 2 ^ s / Z.pos m2) in *.
  split; [lia|].
  pose proof (Zdigits2_ge q (k - 1)). pose proof (Zdigits2_le q (k + 1)).
  lia.
Qed.

Lemma SFdiv_finite_spec s1 m1 e1 s2 m2 e2 :
  dbl_emin + 53 <= mag m1 e1 - mag m2 e2 ->
  match SFdiv dbl_prec dbl_emax (S754_finite s1 m1 e1) (S754_finite s2 m2 e2) with
  | S754_finite s m e =>
      s = xorb s1 s2 /\ mag m1 e1 - mag m2 e2 <= mag m e <= mag m1 e1 - mag m2 e2 + 2
  | S754_infinity s => s = xorb s1 s2 /\ 970 < mag m1 e1 - mag m2 e2
  | _ => False
  end.
Proof.
  unfold mag. intros Hmag. unfold SFdiv.
  pose proof (SFdiv_core_binary_spec m1 e1 m2 e2 Hmag) as Hcore.
  destruct (SFdiv_core_binary _ _ _ _ _ _) as [[q e'] l].
  destruct Hcore as [Hq Hd].
  pose proof (binary_round_aux_spec (xorb s1 s2) q e' l Hq) as Hr.
  destruct (binary_round_aux _ _ _ _ _ _); try (apply Hr; unfold dbl_emin in *; lia).
  - destruct Hr as [-> Hr]; [unfold dbl_emin in *; lia|]. split; [done|lia].
  - destruct Hr as [-> Hr]; [unfold dbl_emin in *; lia|]. split; [done|lia].
Qed.

Lemma SFdiv_finite_sign s1 m1 e1 s2 m2 e2 :
  match SFdiv dbl_prec dbl_emax (S754_finite s1 m1 e1) (S754_finite s2 m2 e2) with
  | S754_finite s _ _ | S754_infinity s | S754_zero s => s = xorb s1 s2
  | S754_nan => True
  end.
Proof.
  unfold SFdiv. destruct (SFdiv_core_binary _ _ _ _ _ _) as [[q e'] l].
  apply binary_round_aux_sign.
Qed.

Lemma Pos_iter_xO m k : Zpos (Pos.iter xO m k) = Zpos m * 2 ^ Zpos k.
Proof.
  induction k as [|k IH] using Pos.peano_ind.
  - simpl. lia.
  - rewrite Pos.iter_succ, Pos2Z.inj_xO, IH, Pos2Z.inj_succ, Z.pow_succ_r by lia. lia.
Qed.

Lemma shl_align_mag m e e0 :
  mag (shl_align m e e0).1 (shl_align m e e0).2 = mag m e.
Proof.
  unfold shl_align, mag. destruct (e0 - e) as [|d|d] eqn:Hd; simpl fst; simpl snd; try done.
  rewrite Pos_iter_xO, !Zdigits2_log2 by lia.
  rewrite Z.log2_mul_pow2 by lia. lia.
Qed.

Lemma binary_round_spec sx m e :
  dbl_emin < mag m e ->
  match binary_round dbl_prec dbl_emax sx m e with
  | S754_finite s m' e' => s = sx /\ mag m e <= mag m' e' <= mag m e + 1
  | S754_infinity s => s = sx /\ 971 < mag m e
  | _ => False
  end.
Proof.
  intros Hmag. unfold binary_round.
  pose proof (shl_align_mag m e (fexp dbl_prec dbl_emax (Z.pos (digits2_pos m) + e))) as Ha.
  destruct (shl_align _ _ _) as [mz ez]. simpl in Ha.
  pose proof (binary_round_aux_spec sx (Z.pos mz) ez loc_Exact) as Hr.
  unfold mag in *. rewrite Ha in Hr. apply Hr; lia.
Qed.

Lemma binary_round_sign sx m e :
  match binary_round dbl_prec dbl_emax sx m e with
  | S754_finite s _ _ | S754_infinity s | S754_zero s => s = sx
  | S754_nan => True
  end.
Proof.
  unfold binary_round. destruct (shl_align _ _ _) as [mz ez].
  apply binary_round_aux_sign.
Qed.

(** ** The runtime on known values *)

(** [1 / 30] is [0x1.1111111111111p-5] and [float(2 ** 53 + 1)] rounds to
    even. *)
Example int_truediv_1_30 :
  int_truediv 1 30 = Ok (S754_finite false 4803839602528529 (-57)).
Proof. vm_compute. reflexivity. Qed.

Example float_of_int_rounds_to_even :
  float_of_int (2 ^ 53 + 1) = Ok (S754_finite false 4503599627370496 1)
  /\ float_of_int (2 ^ 53 + 3) = Ok (S754_finite false 4503599627370498 1).
Proof. vm_compute. by split. Qed.

Example truediv_overflow :
  int_truediv (2 ^ 1024) 1 = Raise OverflowError
  /\ float_of_int (2 ^ 1024 - 2 ^ 970 - 1)
     = Ok (S754_finite false 9007199254740991 971)
  /\ float_of_int (2 ^ 1024 - 2 ^ 970) = Raise OverflowError.
Proof. vm_compute. by repeat split. Qed.

(** Stock 5 with 20 units sold in the 30-day window runs out in
    [ceil(5 / (20 / 30)) = 8] days; a negative stock gives a negative
    projection. *)
Example project_days_examples :
  project_days source_config 5 20 = Ok (Some 8)
  /\ project_days source_config 0 20 = Ok (Some 0)
  /\ project_days source_config 3 1 = Ok (Some 90)
  /\ project_days source_config (-5) 20 = Ok (Some (-7))
  /\ project_days source_config 5 0 = Ok None.
Proof. vm_compute. by repeat split. Qed.

(** [timedelta(days=10**9)] is refused, and so is a date before year 1:
    sixty days back from day 60 is [datetime.min], sixty-one days back
    raises. *)
Example days_before_examples :
  timedelta 999999999 = Ok (timedelta_days 999999999)
  /\ timedelta 1000000000 = Raise OverflowError
  /\ timedelta (-1000000000) = Raise OverflowError
  /\ days_before (60 * day) 60 = Ok 0
  /\ days_before (60 * day) 61 = Raise OverflowError
  /\ days_before DATETIME_MAX 0 = Ok DATETIME_MAX
  /\ days_before DATETIME_MAX (-1) = Raise OverflowError.
Proof. vm_compute. by repeat split. Qed.

(** The windows are computed before the candidates are fetched: with an
    activity window of [10 ** 9] days the view raises even for a company
    without any low position, and with an averaging window of 4000000
    days the start falls before year 1. *)
Example misconfigured_windows_raise :
  low_stock_alerts
    {| SALES_AVG_WINDOW_DAYS := 30; SALES_ACTIVITY_WINDOW_DAYS := 1000000000 |}
    (one_product_db 50 10 20) (100 * day) 1 = Raise OverflowError
  /\ low_stock_alerts
       {| SALES_AVG_WINDOW_DAYS := 4000000; SALES_ACTIVITY_WINDOW_DAYS := 60 |}
       (one_product_db 50 10 20) (739000 * day) 1 = Raise OverflowError
  /\ low_stock_alerts source_config (one_product_db 50 10 20) (739000 * day) 1
     = Ok (JAlerts [] 0, 200).
Proof. vm_compute. by repeat split. Qed.

(** The three scenarios: a low product with recent sales and no supplier,
    a low product without sales in the activity window, a product sold
    only outside the averaging window. *)
Example scenarios :
  low_stock_alerts source_config (one_product_db 5 10 20) (100 * day) 1
    = Ok (JAlerts [one_product_alert 5 10 (Some 8)] 1, 200)
  /\ low_stock_alerts source_config (one_product_db 3 3 0) (100 * day) 1
     = Ok (JAlerts [] 0, 200)
  /\ low_stock_alerts source_config demo_db (100 * day) 1
     = Ok (JAlerts demo_alerts 3, 200).
Proof. vm_compute. by repeat split. Qed.

(** ** Python arithmetic *)

Lemma exact_of_int_nonzero a :
  a <> 0 ->
  exact_of_int a = S754_finite (a <? 0) (Z.to_pos (Z.abs a)) 0
  /\ mag (Z.to_pos (Z.abs a)) 0 = Zdigits2 a.
Proof. intros Ha. unfold mag. destruct a; simpl; [done | split; f_equal; lia ..]. Qed.

Lemma int_truediv_zero b : 1 <= b -> int_truediv 0 b = Ok (S754_zero false).
Proof.
  intros Hb. unfold int_truediv.
  destruct (Z.eqb_spec b 0); [lia|]. by destruct b.
Qed.

(** A non-zero int divided by a positive int that is not astronomically
    larger: a finite float of the dividend's sign, or [OverflowError]. *)
Lemma int_truediv_spec a b :
  a <> 0 -> 1 <= b -> Zdigits2 b <= Zdigits2 a + 1021 ->
  match int_truediv a b with
  | Ok (S754_finite s m e) =>
      s = (a <? 0)
      /\ Zdigits2 a - Zdigits2 b <= mag m e <= Zdigits2 a - Zdigits2 b + 2
  | Ok _ => False
  | Raise ex => ex = OverflowError /\ 970 < Zdigits2 a - Zdigits2 b
  end.
Proof.
  intros Ha Hb Hd. unfold int_truediv.
  destruct (Z.eqb_spec b 0); [lia|].
  destruct (exact_of_int_nonzero a Ha) as [-> Ma].
  destruct (exact_of_int_nonzero b) as [-> Mb]; [lia|].
  pose proof (SFdiv_finite_spec (a <? 0) (Z.to_pos (Z.abs a)) 0
                (b <? 0) (Z.to_pos (Z.abs b)) 0) as Hs.
  rewrite Ma, Mb in Hs.
  assert (Hbs : (b <? 0) = false) by lia. rewrite Hbs, xorb_false_r in *.
  destruct (SFdiv _ _ _ _); try (exfalso; apply Hs; unfold dbl_emin; lia).
  - destruct Hs as [_ Hs]; [unfold dbl_emin; lia | split; [done | lia]].
  - apply Hs. unfold dbl_emin; lia.
Qed.

(** Sign only, for every dividend and every positive divisor. *)
Lemma int_truediv_sign a b :
  1 <= b ->
  match int_truediv a b with
  | Ok (S754_finite s _ _) | Ok (S754_zero s) => s = (a <? 0)
  | Ok (S754_infinity _) => False
  | Ok S754_nan => True
  | Raise ex => ex = OverflowError
  end.
Proof.
  intros Hb. destruct (Z.eq_dec a 0) as [->|Ha].
  { by rewrite int_truediv_zero. }
  unfold int_truediv. destruct (Z.eqb_spec b 0); [lia|].
  destruct (exact_of_int_nonzero a Ha) as [-> _].
  destruct (exact_of_int_nonzero b) as [-> _]; [lia|].
  pose proof (SFdiv_finite_sign (a <? 0) (Z.to_pos (Z.abs a)) 0
                (b <? 0) (Z.to_pos (Z.abs b)) 0) as Hs.
  assert (Hbs : (b <? 0) = false) by lia. rewrite Hbs, xorb_false_r in *.
  by destruct (SFdiv _ _ _ _).
Qed.

Lemma float_of_int_zero : float_of_int 0 = Ok (S754_zero false).
Proof. reflexivity. Qed.

Lemma float_of_int_spec n :
  n <> 0 ->
  match float_of_int n with
  | Ok (S754_finite s m e) =>
      s = (n <? 0) /\ Zdigits2 n <= mag m e <= Zdigits2 n + 1
  | Ok _ => False
  | Raise ex => ex = OverflowError /\ 971 < Zdigits2 n
  end.
Proof.
  intros Hn. unfold float_of_int, binary_normalize.
  assert (Hgen : forall sx p,
    match
      match binary_round dbl_prec dbl_emax sx p 0 with
      | S754_infinity _ => Raise OverflowError
      | f => Ok f
      end
    with
    | Ok (S754_finite s m e) =>
        s = sx /\ Zdigits2 (Z.pos p) <= mag m e <= Zdigits2 (Z.pos p) + 1
    | Ok _ => False
    | Raise ex => ex = OverflowError /\ 971 < Zdigits2 (Z.pos p)
    end).
  { intros sx p. pose proof (binary_round_spec sx p 0) as Hs.
    assert (Hm : mag p 0 = Zdigits2 (Z.pos p)) by (unfold mag; lia).
    rewrite Hm in Hs.
    pose proof (Zdigits2_pos (Z.pos p) eq_refl) as Hp.
    assert (Hmin : dbl_emin < Zdigits2 (Z.pos p)) by (unfold dbl_emin; lia).
    specialize (Hs Hmin).
    destruct (binary_round _ _ _ _ _); try done.
    split; [done | apply Hs]. }
  destruct n as [|p|p]; [done | apply (Hgen false p) | apply (Hgen true p)].
Qed.

Lemma float_of_int_sign n :
  match float_of_int n with
  | Ok (S754_finite s _ _) | Ok (S754_zero s) => s = (n <? 0)
  | Ok (S754_infinity _) => False
  | Ok S754_nan => True
  | Raise ex => ex = OverflowError
  end.
Proof.
  unfold float_of_int, binary_normalize. destruct n as [|p|p]; [done | |].
  - pose proof (binary_round_sign false p 0) as Hs.
    by destruct (binary_round _ _ _ _ _).
  - pose proof (binary_round_sign true p 0) as Hs.
    by destruct (binary_round _ _ _ _ _).
Qed.

Lemma float_gt0_spec x :
  float_gt0 x = true <->
  match x with
  | S754_finite s _ _ | S754_infinity s => s = false
  | _ => False
  end.
Proof. destruct x as [[]|[]| |[] m e]; simpl; split; (done || congruence). Qed.

Lemma math_ceil_nonneg x c :
  match x with
  | S754_finite s _ _ | S754_zero s => s = false
  | _ => True
  end ->
  math_ceil x = Ok c -> 0 <= c.
Proof.
  destruct x as [s|s| |s m e]; simpl; intros Hs Hc; try done.
  - injection Hc as <-. lia.
  - subst s. injection Hc as <-. destruct e as [|k|k].
    + lia.
    + pose proof (Z.pow_pos_nonneg 2 (Z.pos k)). lia.
    + assert (Z.neg m / 2 ^ Z.pos k < 0); [|lia].
      apply Z.div_lt_upper_bound; [apply Z.pow_pos_nonneg; lia | lia].
Qed.

(** ** The error monad *)

Lemma bind_Ok {A B} (a : A) (k : A -> result B) : (Ok a ≫= k) = k a.
Proof. reflexivity. Qed.

Lemma bind_Raise {A B} e (k : A -> result B) : (Raise e ≫= k) = Raise e.
Proof. reflexivity. Qed.

Lemma bind_Ok_inv {A B} (r : result A) (k : A -> result B) b :
  (r ≫= k) = Ok b -> exists a, r = Ok a /\ k a = Ok b.
Proof. destruct r as [a|e]; [by exists a | done]. Qed.

(** ** Stockout projection *)

Lemma clamp_window_pos cfg : 1 <= Z.max (SALES_AVG_WINDOW_DAYS cfg) 1.
Proof. lia. Qed.

Lemma avg_daily_sales_no_zero_division cfg total :
  avg_daily_sales cfg total <> Raise ZeroDivisionError.
Proof.
  unfold avg_daily_sales.
  pose proof (int_truediv_sign total _ (clamp_window_pos cfg)) as Hs.
  destruct (int_truediv _ _) as [f|ex]; [done|]. by subst.
Qed.

(** The projection is [None] exactly when the average is not positive. *)
Lemma project_days_avg cfg q total d :
  project_days cfg q total = Ok d ->
  exists avg, avg_daily_sales cfg total = Ok avg
              /\ (d = None <-> float_gt0 avg = false).
Proof.
  unfold project_days. intros H.
  apply bind_Ok_inv in H as (avg & Havg & H). exists avg. split; [done|].
  destruct (float_gt0 avg).
  - apply bind_Ok_inv in H as (x & _ & H).
    apply bind_Ok_inv in H as (c & _ & H). by injection H as <-.
  - by injection H as <-.
Qed.

Lemma avg_daily_sales_positive cfg total avg :
  SALES_AVG_WINDOW_DAYS cfg < 2 ^ 1000 ->
  avg_daily_sales cfg total = Ok avg ->
  float_gt0 avg = false <-> total <= 0.
Proof.
  intros HW. unfold avg_daily_sales.
  set (b := Z.max (SALES_AVG_WINDOW_DAYS cfg) 1).
  assert (Hb : 1 <= b) by lia.
  assert (Hdb : Zdigits2 b <= 1000).
  { apply Zdigits2_le; [lia|]. unfold b.
    assert (1 < 2 ^ 1000) by (apply Z.pow_gt_1; lia). lia. }
  intros Havg.
  destruct (Z.lt_trichotomy total 0) as [Hneg|[->|Hpos]].
  - pose proof (int_truediv_sign total b Hb) as Hs. rewrite Havg in Hs.
    assert (Ht : (total <? 0) = true) by lia. rewrite Ht in Hs.
    split; [lia|]. intros _.
    destruct (float_gt0 avg) eqn:Hg; [|done].
    apply float_gt0_spec in Hg. destruct avg; subst; done.
  - rewrite int_truediv_zero in Havg by done. injection Havg as <-. done.
  - pose proof (int_truediv_spec total b) as Hs. rewrite Havg in Hs.
    pose proof (Zdigits2_pos total Hpos).
    assert (Ht : (total <? 0) = false) by lia. rewrite Ht in Hs.
    split; [|lia]. intros Hg.
    destruct avg as [s|s| |s m e]; try (exfalso; apply Hs; lia).
    destruct Hs as [-> _]; [lia..|]. done.
Qed.

Lemma project_days_null_iff cfg q total d :
  SALES_AVG_WINDOW_DAYS cfg < 2 ^ 1000 ->
  project_days cfg q total = Ok d ->
  d = None <-> total <= 0.
Proof.
  intros HW H. apply project_days_avg in H as (avg & Havg & Hd).
  rewrite Hd. by apply (avg_daily_sales_positive cfg).
Qed.

Lemma float_truediv_sign_nonneg x y d :
  match x with
  | S754_finite s _ _ | S754_zero s => s = false
  | _ => True
  end ->
  float_gt0 y = true ->
  float_truediv x y = Ok d ->
  match d with
  | S754_finite s _ _ | S754_zero s => s = false
  | _ => True
  end.
Proof.
  intros Hx Hy. apply float_gt0_spec in Hy.
  destruct y as [sy|sy| |sy my ey]; try done; subst sy; simpl; intros [= <-].
  - by destruct x as [s|s| |s m e]; simpl; subst.
  - destruct x as [s|s| |s m e]; try done; subst.
    + done.
    + pose proof (SFdiv_finite_sign false m e false my ey) as Hs.
      by destruct (SFdiv _ _ _ _).
Qed.

Lemma project_days_nonneg cfg q total c :
  0 <= q ->
  project_days cfg q total = Ok (Some c) ->
  0 <= c.
Proof.
  intros Hq. unfold project_days. intros H.
  apply bind_Ok_inv in H as (avg & Havg & H).
  destruct (float_gt0 avg) eqn:Hg; [|done].
  apply bind_Ok_inv in H as (d & Hd & H).
  apply bind_Ok_inv in H as (c' & Hc & [= ->]).
  unfold int_float_truediv in Hd.
  apply bind_Ok_inv in Hd as (x & Hx & Hd).
  pose proof (float_of_int_sign q) as Hs. rewrite Hx in Hs.
  assert (Hqs : (q <? 0) = false) by lia. rewrite Hqs in Hs.
  apply (math_ceil_nonneg d); [|done].
  apply (float_truediv_sign_nonneg x avg); [|done..].
  by destruct x.
Qed.

Lemma project_days_no_zero_division cfg q total :
  project_days cfg q total <> Raise ZeroDivisionError.
Proof.
  unfold project_days.
  pose proof (avg_daily_sales_no_zero_division cfg total) as Ha.
  destruct (avg_daily_sales cfg total) as [avg|ex];
    [|rewrite bind_Raise; congruence].
  rewrite bind_Ok. destruct (float_gt0 avg) eqn:Hg; [|done].
  unfold int_float_truediv.
  pose proof (float_of_int_sign q) as Hs.
  destruct (float_of_int q) as [x|ex]; [|rewrite !bind_Raise; by subst].
  rewrite bind_Ok.
  apply float_gt0_spec in Hg.
  destruct avg as [s|s| |s m e]; try done; simpl float_truediv; rewrite bind_Ok.
  - destruct (math_ceil _) as [c|ex] eqn:Hc; [done|].
    rewrite bind_Raise. intros [= ->].
    destruct (SFdiv _ _ _ _); simpl in Hc; congruence.
  - destruct (math_ceil _) as [c|ex] eqn:Hc; [done|].
    rewrite bind_Raise. intros [= ->].
    destruct (SFdiv _ _ _ _); simpl in Hc; congruence.
Qed.

Lemma Zdigits2_opp n : Zdigits2 (- n) = Zdigits2 n.
Proof. by destruct n. Qed.

Lemma Zdigits2_int64 n : n <> 0 -> int64 n -> 1 <= Zdigits2 n <= 64.
Proof.
  unfold int64. intros Hn Hb.
  assert (H64 : 2 ^ 64 = 2 * 2 ^ 63) by reflexivity.
  destruct (Z.lt_trichotomy n 0) as [Hneg|[->|Hpos]]; [|done|].
  - rewrite <- Zdigits2_opp. split; [apply Zdigits2_pos; lia|].
    apply Zdigits2_le; lia.
  - split; [by apply Zdigits2_pos|]. apply Zdigits2_le; lia.
Qed.

(** With 64-bit operands and window the projection never raises. *)
Lemma project_days_int64 cfg q total :
  int64 q -> int64 total -> int64 (SALES_AVG_WINDOW_DAYS cfg) ->
  exists d, project_days cfg q total = Ok d.
Proof.
  intros Hq Ht HW. unfold project_days, avg_daily_sales.
  set (b := Z.max (SALES_AVG_WINDOW_DAYS cfg) 1).
  assert (Hb : 1 <= b) by lia.
  assert (Hdb : 1 <= Zdigits2 b <= 64).
  { apply Zdigits2_int64; [lia|]. unfold int64 in *. lia. }
  destruct (Z.eq_dec total 0) as [->|Ht0].
  { rewrite int_truediv_zero by done. rewrite bind_Ok. by exists None. }
  pose proof (Zdigits2_int64 total Ht0 Ht) as Hdt.
  pose proof (int_truediv_spec total b Ht0 Hb) as Hs.
  destruct (int_truediv total b) as [avg|ex]; [|exfalso; lia].
  rewrite bind_Ok.
  destruct avg as [s|s| |s m e]; try (exfalso; apply Hs; lia).
  destruct Hs as [-> Hmag]; [lia|].
  destruct (float_gt0 _); [|by exists None].
  unfold int_float_truediv.
  destruct (Z.eq_dec q 0) as [->|Hq0].
  { rewrite float_of_int_zero, !bind_Ok. simpl. by eexists. }
  pose proof (Zdigits2_int64 q Hq0 Hq) as Hdq.
  pose proof (float_of_int_spec q Hq0) as Hf.
  destruct (float_of_int q) as [x|ex]; [|exfalso; lia].
  destruct x as [sx|sx| |sx mx ex]; try done.
  destruct Hf as [-> Hmx].
  rewrite bind_Ok.
  change (float_truediv ?x (S754_finite ?s ?m ?e))
    with (Ok (SFdiv dbl_prec dbl_emax x (S754_finite s m e))).
  rewrite bind_Ok.
  pose proof (SFdiv_finite_spec (q <? 0) mx ex (total <? 0) m e) as Hd.
  destruct (SFdiv _ _ _ _) as [sd|sd| |sd md ed];
    try (exfalso; apply Hd; unfold dbl_emin; lia).
  - exfalso. destruct Hd as [_ Hd]; [unfold dbl_emin; lia | lia].
  - simpl. by eexists.
Qed.

(** ** Queries and dictionaries *)

Lemma filter_bind {A B} (P : B -> Prop) `{!forall x, Decision (P x)}
    (f : A -> list B) (l : list A) :
  filter P (l ≫= f) = l ≫= (fun x => filter P (f x)).
Proof.
  induction l as [|x l IH]; [done|].
  rewrite !bind_cons, filter_app. by rewrite IH.
Qed.

Lemma filter_none {A} (P : A -> Prop) `{!forall x, Decision (P x)} (l : list A) :
  (forall x, x ∈ l -> ~ P x) -> filter P l = [].
Proof.
  intros Hl. destruct (filter P l) as [|x k] eqn:Hf; [done|].
  assert (Hx : x ∈ filter P l) by (rewrite Hf; left).
  apply list_elem_of_filter in Hx as [HP Hx]. by destruct (Hl x).
Qed.

Lemma sold_items_filter db cid ids since pid :
  pid ∈ ids ->
  filter (fun oi => oi_product_id oi = pid) (sold_items db cid ids since)
  = filter (fun oi => oi_product_id oi = pid) (window_items db cid since).
Proof.
  intros Hin. unfold sold_items, window_items. rewrite !filter_bind.
  apply list_bind_ext; [|done]. intros oi. rewrite !filter_bind.
  apply list_bind_ext; [|done]. intros o.
  destruct (decide (oi_product_id oi = pid)) as [Heq|Hne].
  - subst pid. repeat case_decide; try done; exfalso; tauto.
  - repeat case_decide; rewrite ?filter_cons_False; done.
Qed.

Lemma dict_of_rows_snoc rows r :
  dict_of_rows (rows ++ [r]) = <[r.1 := r.2]> (dict_of_rows rows).
Proof. unfold dict_of_rows. by rewrite foldl_snoc. Qed.

Lemma dict_of_rows_keyed (f : Z -> Z) (keys : list Z) (k : Z) :
  dict_of_rows ((fun k => (k, f k)) <$> keys) !! k
  = if decide (k ∈ keys) then Some (f k) else None.
Proof.
  induction keys as [|x keys IH] using rev_ind.
  - done.
  - rewrite fmap_app. simpl. rewrite dict_of_rows_snoc. simpl.
    destruct (decide (k = x)) as [->|Hne].
    + rewrite lookup_insert_eq, decide_True; [done|].
      apply elem_of_app. right. left.
    + rewrite lookup_insert_ne by done. rewrite IH.
      apply decide_ext. rewrite elem_of_app, list_elem_of_singleton. tauto.
Qed.

(** Reading a sales dictionary gives the product's window total. *)
Lemma sales_lookup db cid ids since pid :
  pid ∈ ids ->
  dict_get0 (dict_of_rows (sales_since db cid ids since)) pid
  = window_sales db cid since pid.
Proof.
  intros Hin. unfold sales_since, dict_get0, window_sales.
  rewrite (dict_of_rows_keyed
    (fun pid => sum_Z (oi_quantity <$>
       filter (fun oi => oi_product_id oi = pid) (sold_items db cid ids since)))).
  rewrite <- (sold_items_filter db cid ids since pid Hin).
  case_decide as Hk; [done|]. simpl.
  rewrite filter_none; [done|].
  intros oi Hoi Hp. apply Hk. apply elem_of_remove_dups.
  apply list_elem_of_fmap. by exists oi.
Qed.

Lemma suppliers_q_links db ids pid :
  pid ∈ ids ->
  links_of pid (suppliers_q db ids) = links_of pid (all_links db).
Proof.
  intros Hin. unfold links_of, suppliers_q, all_links. rewrite !filter_bind.
  apply list_bind_ext; [|done]. intros ps. rewrite !filter_bind.
  apply list_bind_ext; [|done]. intros s.
  destruct (decide (ps_product_id ps = pid)) as [Heq|Hne].
  - case_decide; [done|]. by subst.
  - case_decide; rewrite ?filter_cons_False; done.
Qed.

Lemma product_ids_listing : valid_listing product_ids.
Proof.
  intros rows pid. unfold product_ids.
  rewrite elem_of_elements, elem_of_list_to_set, list_elem_of_fmap.
  split; intros (row & ? & ?); by exists row.
Qed.

Lemma candidate_rows_spec db cid inv prod wh :
  (inv, prod, wh) ∈ candidate_rows db cid <->
  inv ∈ inventories db /\ wh ∈ warehouses db /\ prod ∈ products db
  /\ inv_warehouse_id inv = wh_id wh /\ inv_product_id inv = prod_id prod
  /\ wh_company_id wh = cid /\ inv_quantity inv <= inv_threshold inv.
Proof.
  unfold candidate_rows. rewrite list_elem_of_bind. split.
  - intros (inv' & H & Hinv). apply list_elem_of_bind in H as (wh' & H & Hwh).
    apply list_elem_of_bind in H as (prod' & H & Hprod).
    apply list_elem_of_filter in Hwh as [? ?].
    apply list_elem_of_filter in Hprod as [? ?].
    case_decide; [|by apply elem_of_nil in H].
    apply list_elem_of_singleton in H as [= -> -> ->]. tauto.
  - intros (? & ? & ? & ? & ? & ? & ?). exists inv. split; [|done].
    apply list_elem_of_bind. exists wh. split; [|by apply list_elem_of_filter].
    apply list_elem_of_bind. exists prod. split; [|by apply list_elem_of_filter].
    rewrite decide_True by done. left.
Qed.

(** ** Supplier resolution *)

Lemma entry_of_row_primary r : se_is_primary (entry_of_row r) = row_is_primary r.
Proof. by destruct r as [[[[? ?] ?] ?] ?]. Qed.

Lemma preferred_link_snoc links r :
  preferred_link (links ++ [r])
  = match preferred_link links with
    | None => Some r
    | Some x =>
        if row_is_primary r && negb (row_is_primary x) then Some r else Some x
    end.
Proof.
  unfold preferred_link at 1 2. rewrite filter_app, !head_app.
  destruct (head (filter _ links)) as [y|] eqn:Hy.
  - apply head_Some_elem_of, list_elem_of_filter in Hy as [-> _].
    by rewrite andb_false_r.
  - destruct links as [|x links]; simpl.
    + unfold filter, list_filter. by case_decide.
    + assert (Hx : row_is_primary x = false).
      { destruct (row_is_primary x) eqn:Hp; [|done].
        rewrite filter_cons_True in Hy by done. done. }
      rewrite Hx, andb_true_r.
      destruct (row_is_primary r) eqn:Hr.
      * by rewrite filter_cons_True.
      * rewrite filter_cons_False by congruence. done.
Qed.

Lemma build_supplier_map_snoc rows r :
  build_supplier_map (rows ++ [r])
  = supplier_map_step (build_supplier_map rows) r.
Proof. unfold build_supplier_map. by rewrite foldl_snoc. Qed.

Lemma links_of_snoc p rows r :
  links_of p (rows ++ [r])
  = links_of p rows ++ (if decide (row_prod_id r = p) then [r] else []).
Proof.
  unfold links_of. by rewrite filter_app.
Qed.

(** Closed form of the fold: the first primary link of the product when it
    has one, its first link otherwise. *)
Lemma supplier_map_lookup rows p :
  build_supplier_map rows !! p
  = entry_of_row <$> preferred_link (links_of p rows).
Proof.
  induction rows as [|r rows IH] using rev_ind; [done|].
  rewrite build_supplier_map_snoc, links_of_snoc. unfold supplier_map_step.
  destruct (decide (row_prod_id r = p)) as [Hp|Hp].
  - rewrite preferred_link_snoc. rewrite Hp, IH.
    destruct (preferred_link (links_of p rows)) as [x|]; simpl.
    + rewrite entry_of_row_primary.
      destruct (row_is_primary r && negb (row_is_primary x)).
      * by rewrite lookup_insert_eq.
      * by rewrite IH.
    + by rewrite lookup_insert_eq.
  - rewrite app_nil_r, <- IH.
    destruct (build_supplier_map rows !! row_prod_id r) as [entry|].
    + destruct (_ && _); [by rewrite lookup_insert_ne | done].
    + by rewrite lookup_insert_ne.
Qed.

Lemma supplier_lookup db ids pid :
  pid ∈ ids ->
  supplier_info_of <$> build_supplier_map (suppliers_q db ids) !! pid
  = preferred_supplier db pid.
Proof.
  intros Hin. unfold preferred_supplier.
  rewrite supplier_map_lookup, suppliers_q_links by done.
  by destruct (preferred_link _).
Qed.

(** ** The alert loop *)

Section loop.
Context (cfg : Config) (db : Db) (now : datetime) (cid : Z).
Context (recent_sales_map avg_sales_map : gmap Z Z).
Context (supplier_map : gmap Z SupplierEntry).

Lemma alerts_loop_spec rows acc out :
  (forall row, row ∈ rows ->
     dicts_faithful cfg db now cid recent_sales_map avg_sales_map
       supplier_map row) ->
  alerts_loop cfg recent_sales_map avg_sales_map supplier_map rows acc = Ok out ->
  exists new,
    out = acc ++ new
    /\ Forall2 (alert_of cfg db now cid) (filter (gate cfg db now cid) rows) new.
Proof.
  revert acc. induction rows as [|row rows IH]; intros acc Hf; simpl.
  - intros [= <-]. exists []. by rewrite app_nil_r.
  - destruct (Hf row) as (Hr & Ha & Hs); [left|].
    assert (Hf' : forall r, r ∈ rows ->
              dicts_faithful cfg db now cid recent_sales_map avg_sales_map supplier_map r)
      by (intros; apply Hf; by right).
    rewrite Hr, Ha, Hs.
    destruct (Z.eqb_spec (window_sales db cid (activity_since cfg now)
                            (prod_id row.1.2)) 0) as [Hz|Hnz].
    + rewrite filter_cons_False by (unfold gate; lia). by apply IH.
    + rewrite filter_cons_True by done. intros H.
      apply bind_Ok_inv in H as (days & Hd & H).
      apply IH in H as (new & -> & HF); [|done].
      eexists (_ :: new). rewrite <- app_assoc. split; [done|].
      constructor; [|done]. by exists days.
Qed.

Lemma alerts_loop_ok rows acc :
  (forall row, row ∈ rows ->
     dicts_faithful cfg db now cid recent_sales_map avg_sales_map
       supplier_map row) ->
  (forall row, row ∈ rows -> gate cfg db now cid row ->
     exists days,
       project_days cfg (inv_quantity row.1.1)
         (window_sales db cid (avg_since cfg now) (prod_id row.1.2)) = Ok days) ->
  exists out,
    alerts_loop cfg recent_sales_map avg_sales_map supplier_map rows acc = Ok out.
Proof.
  revert acc. induction rows as [|row rows IH]; intros acc Hf Hp; simpl.
  - by eexists.
  - destruct (Hf row) as (Hr & Ha & Hs); [left|].
    rewrite Hr, Ha.
    destruct (Z.eqb_spec (window_sales db cid (activity_since cfg now)
                            (prod_id row.1.2)) 0) as [Hz|Hnz].
    + apply IH; intros; [apply Hf | apply Hp]; by try right.
    + destruct (Hp row) as [days ->]; [left | done |].
      rewrite bind_Ok. apply IH; intros; [apply Hf | apply Hp]; by try right.
Qed.
End loop.

(** The loop only reads the dictionaries at the products of its rows. *)
Lemma alerts_loop_ext cfg rm am sm rm' am' sm' rows acc :
  (forall row, row ∈ rows ->
     let pid := prod_id row.1.2 in
     dict_get0 rm pid = dict_get0 rm' pid
     /\ dict_get0 am pid = dict_get0 am' pid
     /\ sm !! pid = sm' !! pid) ->
  alerts_loop cfg rm am sm rows acc = alerts_loop cfg rm' am' sm' rows acc.
Proof.
  revert acc. induction rows as [|row rows IH]; intros acc Hf; simpl; [done|].
  destruct (Hf row) as (-> & -> & ->); [left|].
  assert (Hf' : forall r, r ∈ rows ->
            let pid := prod_id r.1.2 in
            dict_get0 rm pid = dict_get0 rm' pid
            /\ dict_get0 am pid = dict_get0 am' pid /\ sm !! pid = sm' !! pid)
    by (intros; apply Hf; by right).
  destruct (_ =? 0); [by apply IH|].
  destruct (project_days _ _ _) as [days|ex]; [|done].
  rewrite !bind_Ok. by apply IH.
Qed.

(** ** The view *)

Lemma Forall2_elem_of_r {A B} (P : A -> B -> Prop) l k y :
  Forall2 P l k -> y ∈ k -> exists x, x ∈ l /\ P x y.
Proof.
  induction 1 as [|x y' l k HP HF IH]; intros Hy.
  - by apply elem_of_nil in Hy.
  - apply elem_of_cons in Hy as [->|Hy].
    + exists x. split; [left | done].
    + destruct (IH Hy) as (x' & ? & ?). exists x'. split; [by right | done].
Qed.

Lemma dicts_faithful_view listing cfg db now cid rows row :
  valid_listing listing -> row ∈ rows ->
  dicts_faithful cfg db now cid
    (dict_of_rows (sales_since db cid (listing rows) (activity_since cfg now)))
    (dict_of_rows (sales_since db cid (listing rows) (avg_since cfg now)))
    (build_supplier_map (suppliers_q db (listing rows))) row.
Proof.
  intros Hl Hrow.
  assert (Hin : prod_id row.1.2 ∈ listing rows) by (apply Hl; by exists row).
  repeat split; [by apply sales_lookup .. | by apply supplier_lookup].
Qed.

Lemma days_before_spec now d :
  days_before now d
  = if decide (Z.abs d <= MAX_DELTA_DAYS
               /\ 0 <= now - timedelta_days d <= DATETIME_MAX)
    then Ok (now - timedelta_days d) else Raise OverflowError.
Proof.
  unfold days_before, timedelta, datetime_sub.
  destruct (decide (Z.abs d <= MAX_DELTA_DAYS)) as [Hd|Hd].
  - rewrite bind_Ok. repeat case_decide; try done; exfalso; tauto.
  - rewrite bind_Raise. rewrite decide_False; [done | tauto].
Qed.

(** The view with its two window computations made explicit: it raises
    [OverflowError] exactly when the company exists and a window start
    cannot be computed. *)
Lemma view_unfold listing cfg db now cid :
  low_stock_alerts_with listing cfg db now cid
  = match Company_get db cid with
    | None => Ok (JError "Company not found", 404)
    | Some _ =>
        if decide (windows_in_range cfg now) then
          match candidate_rows db cid with
          | [] => Ok (JAlerts [] 0, 200)
          | rows =>
              alerts_for cfg db cid (avg_since cfg now) (activity_since cfg now)
                rows (listing rows)
          end
        else Raise OverflowError
    end.
Proof.
  unfold low_stock_alerts_with. destruct (Company_get db cid); [|done].
  rewrite !days_before_spec. unfold windows_in_range, avg_since, activity_since.
  destruct (decide (Z.abs (SALES_AVG_WINDOW_DAYS cfg) <= MAX_DELTA_DAYS
                    /\ 0 <= now - timedelta_days (SALES_AVG_WINDOW_DAYS cfg)
                         <= DATETIME_MAX)) as [Ha|Ha].
  - rewrite bind_Ok.
    destruct (decide (Z.abs (SALES_ACTIVITY_WINDOW_DAYS cfg) <= MAX_DELTA_DAYS
                      /\ 0 <= now - timedelta_days (SALES_ACTIVITY_WINDOW_DAYS cfg)
                           <= DATETIME_MAX)) as [Hb|Hb].
    + rewrite bind_Ok, decide_True by done.
      by destruct (candidate_rows db cid).
    + rewrite bind_Raise. rewrite decide_False; [done | tauto].
  - rewrite bind_Raise. rewrite decide_False; [done | tauto].
Qed.

Lemma alerts_for_inv listing cfg db now cid rows body st :
  valid_listing listing ->
  alerts_for cfg db cid (avg_since cfg now) (activity_since cfg now)
    rows (listing rows) = Ok (body, st) ->
  st = 200
  /\ exists alerts,
       body = JAlerts alerts (Z.of_nat (length alerts))
       /\ Forall2 (alert_of cfg db now cid)
            (filter (gate cfg db now cid) rows) alerts.
Proof.
  intros Hl. unfold alerts_for. intros H.
  apply bind_Ok_inv in H as (alerts & Hloop & [= <- <-]).
  split; [done|]. exists alerts. split; [done|].
  apply (alerts_loop_spec cfg db now cid) in Hloop as (new & -> & HF); [done|].
  intros row Hrow. by apply dicts_faithful_view.
Qed.

(** What a successful alert response says about the store. *)
Lemma view_inv listing cfg db now cid alerts n st :
  valid_listing listing ->
  low_stock_alerts_with listing cfg db now cid = Ok (JAlerts alerts n, st) ->
  is_Some (Company_get db cid) /\ st = 200 /\ n = Z.of_nat (length alerts)
  /\ Forall2 (alert_of cfg db now cid)
       (filter (gate cfg db now cid) (candidate_rows db cid)) alerts.
Proof.
  intros Hl. rewrite view_unfold.
  destruct (Company_get db cid) as [c|]; [|done].
  case_decide as Hw; [|done].
  destruct (candidate_rows db cid) as [|row rows] eqn:Hrows.
  - intros [= <- <- <-]. repeat split; [by eexists | constructor].
  - intros H. apply alerts_for_inv in H as (-> & alerts' & [= -> ->] & HF); done.
Qed.

Lemma alert_in_view cfg db now cid alerts n st a :
  low_stock_alerts cfg db now cid = Ok (JAlerts alerts n, st) ->
  a ∈ alerts ->
  exists row, row ∈ candidate_rows db cid /\ gate cfg db now cid row
              /\ alert_of cfg db now cid row a.
Proof.
  intros H Ha.
  apply (view_inv _ _ _ _ _ _ _ _ product_ids_listing) in H as (_ & _ & _ & HF).
  destruct (Forall2_elem_of_r _ _ _ _ HF Ha) as (row & Hrow & Hal).
  apply list_elem_of_filter in Hrow as [Hg Hrow]. by exists row.
Qed.

Lemma Company_get_None db cid :
  Company_get db cid = None <-> cid ∉ company_id <$> companies db.
Proof.
  unfold Company_get. rewrite list_elem_of_fmap. split.
  - intros Hh (c & -> & Hc).
    assert (Hin : c ∈ filter (fun c' => company_id c' = company_id c) (companies db))
      by by apply list_elem_of_filter.
    destruct (filter _ (companies db)); [by apply elem_of_nil in Hin | done].
  - intros Hn. rewrite filter_none; [done|].
    intros c Hc Heq. apply Hn. by exists c.
Qed.

(** * The claims *)

(** C5.  A request naming a company id that no company row carries is
    answered with the 404 "Company not found" response: the view neither
    raises nor returns a 200 response with an (empty) alert list. *)
Theorem unknown_company_not_found cfg db now cid :
  cid ∉ company_id <$> companies db ->
  low_stock_alerts cfg db now cid = Ok (JError "Company not found", 404)
  /\ (forall e, low_stock_alerts cfg db now cid <> Raise e)
  /\ (forall alerts n,
        low_stock_alerts cfg db now cid <> Ok (JAlerts alerts n, 200)).
Proof.
  intros Hc. apply Company_get_None in Hc.
  assert (H : low_stock_alerts cfg db now cid
              = Ok (JError "Company not found", 404)).
  { unfold low_stock_alerts, low_stock_alerts_with. by rewrite Hc. }
  rewrite H. by repeat split.
Qed.

Lemma unknown_company_not_found_witness :
  low_stock_alerts source_config demo_db (100 * day) 2
    = Ok (JError "Company not found", 404)
  /\ (forall e, low_stock_alerts source_config demo_db (100 * day) 2 <> Raise e)
  /\ (forall alerts n,
        low_stock_alerts source_config demo_db (100 * day) 2
          <> Ok (JAlerts alerts n, 200)).
Proof.
  apply (unknown_company_not_found source_config demo_db (100 * day) 2).
  simpl. intros H. apply list_elem_of_singleton in H. discriminate H.
Defined.

(** C4.  Every alert shows a stock at or below its threshold; an
    inventory position whose quantity is strictly above its threshold is
    not a candidate row and no alert is built from it; the candidate rows
    are exactly the joined positions of the company with
    [quantity <= threshold], the bound included. *)
Theorem above_threshold_never_alerted cfg db now cid alerts n st :
  low_stock_alerts cfg db now cid = Ok (JAlerts alerts n, st) ->
  (forall a, a ∈ alerts -> current_stock a <= threshold a)
  /\ (forall inv prod wh,
        inv_threshold inv < inv_quantity inv ->
        ((inv, prod, wh) ∉ candidate_rows db cid)
        /\ forall days sup, make_alert (inv, prod, wh) days sup ∉ alerts)
  /\ (forall inv prod wh,
        (inv, prod, wh) ∈ candidate_rows db cid <->
        inv ∈ inventories db /\ wh ∈ warehouses db /\ prod ∈ products db
        /\ inv_warehouse_id inv = wh_id wh /\ inv_product_id inv = prod_id prod
        /\ wh_company_id wh = cid /\ inv_quantity inv <= inv_threshold inv).
Proof.
  intros H.
  assert (Hle : forall a, a ∈ alerts -> current_stock a <= threshold a).
  { intros a Ha.
    destruct (alert_in_view _ _ _ _ _ _ _ _ H Ha)
      as ([[inv prod] wh] & Hrow & _ & days & _ & ->).
    apply candidate_rows_spec in Hrow. simpl. tauto. }
  split; [done|]. split; [|apply candidate_rows_spec].
  intros inv prod wh Hgt. split.
  - intros Hrow%candidate_rows_spec. lia.
  - intros days sup Ha. apply Hle in Ha. simpl in Ha. lia.
Qed.

Lemma above_threshold_never_alerted_witness :
  (forall a, a ∈ demo_alerts -> current_stock a <= threshold a)
  /\ (forall inv prod wh,
        inv_threshold inv < inv_quantity inv ->
        ((inv, prod, wh) ∉ candidate_rows demo_db 1)
        /\ forall days sup, make_alert (inv, prod, wh) days sup ∉ demo_alerts)
  /\ (forall inv prod wh,
        (inv, prod, wh) ∈ candidate_rows demo_db 1 <->
        inv ∈ inventories demo_db /\ wh ∈ warehouses demo_db
        /\ prod ∈ products demo_db
        /\ inv_warehouse_id inv = wh_id wh /\ inv_product_id inv = prod_id prod
        /\ wh_company_id wh = 1 /\ inv_quantity inv <= inv_threshold inv).
Proof.
  apply (above_threshold_never_alerted source_config demo_db (100 * day) 1
           demo_alerts 3 200).
  vm_compute. reflexivity.
Defined.

(** C3.  A candidate row whose product is absent from the activity
    dictionary, or mapped to zero there, has zero summed sales in the
    activity window, and the response holds no alert for its product,
    whatever the stock level. *)
Theorem inactive_products_never_alerted cfg db now cid alerts n st row :
  low_stock_alerts cfg db now cid = Ok (JAlerts alerts n, st) ->
  row ∈ candidate_rows db cid ->
  let recent_sales_map :=
    dict_of_rows (sales_since db cid (product_ids (candidate_rows db cid))
                    (activity_since cfg now)) in
  recent_sales_map !! prod_id row.1.2 = None
  \/ recent_sales_map !! prod_id row.1.2 = Some 0 ->
  window_sales db cid (activity_since cfg now) (prod_id row.1.2) = 0
  /\ forall a, a ∈ alerts -> product_id a <> prod_id row.1.2.
Proof.
  intros H Hrow rm Hz.
  assert (Hin : prod_id row.1.2 ∈ product_ids (candidate_rows db cid))
    by (apply product_ids_listing; by exists row).
  assert (Hw : window_sales db cid (activity_since cfg now) (prod_id row.1.2) = 0).
  { rewrite <- (sales_lookup db cid _ _ _ Hin). unfold dict_get0. fold rm.
    by destruct Hz as [-> | ->]. }
  split; [done|]. intros a Ha Heq.
  destruct (alert_in_view _ _ _ _ _ _ _ _ H Ha)
    as ([[inv prod] wh] & _ & Hg & days & _ & ->).
  simpl in Heq. unfold gate in Hg. simpl in Hg. congruence.
Qed.

Lemma inactive_products_never_alerted_witness :
  window_sales demo_db 1 (activity_since source_config (100 * day)) 101 = 0
  /\ forall a, a ∈ demo_alerts -> product_id a <> 101.
Proof.
  apply (inactive_products_never_alerted source_config demo_db (100 * day) 1
           demo_alerts 3 200
           ({| inv_product_id := 101; inv_warehouse_id := 10;
               inv_quantity := 3; inv_threshold := 3 |},
            {| prod_id := 101; prod_name := "P2"; prod_sku := "SKU-2" |},
            {| wh_id := 10; wh_name := "W1"; wh_company_id := 1 |})).
  - vm_compute. reflexivity.
  - vm_compute. right. left.
  - left. vm_compute. reflexivity.
Defined.

(** C7.  The alerts are, in order, the alerts of the candidate rows that
    pass the activity gate: one alert per such row, at the same relative
    position as the row in the candidate fetch, so the (product,
    warehouse) pairs of the alerts are those of the gated rows in fetch
    order. *)
Theorem alerts_follow_candidate_order cfg db now cid alerts n st :
  low_stock_alerts cfg db now cid = Ok (JAlerts alerts n, st) ->
  Forall2 (alert_of cfg db now cid)
    (filter (gate cfg db now cid) (candidate_rows db cid)) alerts
  /\ (fun a => (product_id a, warehouse_id a)) <$> alerts
     = (fun row : candidate_row => (prod_id row.1.2, wh_id row.2))
       <$> filter (gate cfg db now cid) (candidate_rows db cid)
  /\ (fun a => (product_id a, warehouse_id a)) <$> alerts
     `sublist_of` (fun row : candidate_row => (prod_id row.1.2, wh_id row.2))
                  <$> candidate_rows db cid.
Proof.
  intros H.
  apply (view_inv _ _ _ _ _ _ _ _ product_ids_listing) in H as (_ & _ & _ & HF).
  split; [done|].
  assert (Heq : (fun a => (product_id a, warehouse_id a)) <$> alerts
     = (fun row : candidate_row => (prod_id row.1.2, wh_id row.2))
       <$> filter (gate cfg db now cid) (candidate_rows db cid)).
  { induction HF as [|row a rows alerts' Ha HF IH]; [done|].
    rewrite !fmap_cons, IH. f_equal.
    destruct Ha as (days & _ & ->). by destruct row as [[inv prod] wh]. }
  split; [done|]. rewrite Heq. apply fmap_sublist, sublist_filter.
Qed.

Lemma alerts_follow_candidate_order_witness :
  Forall2 (alert_of source_config demo_db (100 * day) 1)
    (filter (gate source_config demo_db (100 * day) 1) (candidate_rows demo_db 1))
    demo_alerts
  /\ (fun a => (product_id a, warehouse_id a)) <$> demo_alerts
     = (fun row : candidate_row => (prod_id row.1.2, wh_id row.2))
       <$> filter (gate source_config demo_db (100 * day) 1)
             (candidate_rows demo_db 1)
  /\ (fun a => (product_id a, warehouse_id a)) <$> demo_alerts
     `sublist_of` (fun row : candidate_row => (prod_id row.1.2, wh_id row.2))
                  <$> candidate_rows demo_db 1.
Proof.
  apply (alerts_follow_candidate_order source_config demo_db (100 * day) 1
           demo_alerts 3 200).
  vm_compute. reflexivity.
Defined.

(** C2.  Supplier resolution is a left-to-right fold over the links.  For a
    product [p]: nothing is retained before the first link; a further link
    [r] changes the retained entry only if it is a link of [p] and either
    nothing is retained yet or [r] is primary and the retained entry is
    not.  Hence the first primary link of [p] wins whatever comes before
    (non-primary links only) and after it (other primaries included), and
    when [p] has no primary link its first link is kept. *)
Theorem supplier_resolution_first_primary_wins rows p :
  build_supplier_map [] !! p = None
  /\ (forall r,
        build_supplier_map (rows ++ [r]) !! p
        = if decide (row_prod_id r = p) then
            match build_supplier_map rows !! p with
            | None => Some (entry_of_row r)
            | Some kept =>
                if row_is_primary r && negb (se_is_primary kept)
                then Some (entry_of_row r) else Some kept
            end
          else build_supplier_map rows !! p)
  /\ (forall before r after,
        links_of p rows = before ++ r :: after ->
        (forall x, x ∈ before -> row_is_primary x = false) ->
        row_is_primary r = true ->
        build_supplier_map rows !! p = Some (entry_of_row r))
  /\ (forall first rest,
        links_of p rows = first :: rest ->
        (forall x, x ∈ rest -> row_is_primary x = false) ->
        build_supplier_map rows !! p = Some (entry_of_row first))
  /\ (links_of p rows = [] -> build_supplier_map rows !! p = None).
Proof.
  split; [done|]. split; [|split; [|split]].
  - intros r. rewrite build_supplier_map_snoc. unfold supplier_map_step.
    case_decide as Hp.
    + rewrite Hp. destruct (build_supplier_map rows !! p) as [kept|] eqn:Hk.
      * destruct (_ && _); [by rewrite lookup_insert_eq | done].
      * by rewrite lookup_insert_eq.
    + destruct (build_supplier_map rows !! row_prod_id r) as [kept|].
      * destruct (_ && _); [by rewrite lookup_insert_ne | done].
      * by rewrite lookup_insert_ne.
  - intros before r after Hl Hb Hr.
    rewrite supplier_map_lookup, Hl. unfold preferred_link.
    rewrite filter_app, filter_none by (intros x Hx; rewrite (Hb x Hx); done).
    by rewrite filter_cons_True.
  - intros first rest Hl Hrest.
    rewrite supplier_map_lookup, Hl. unfold preferred_link.
    destruct (row_is_primary first) eqn:Hf.
    + by rewrite filter_cons_True.
    + rewrite filter_cons_False by congruence.
      rewrite filter_none by (intros x Hx; rewrite (Hrest x Hx); done). done.
  - intros Hl. by rewrite supplier_map_lookup, Hl.
Qed.

Lemma supplier_resolution_first_primary_wins_witness :
  build_supplier_map demo_links !! 102
  = Some (entry_of_row (102, 8, "Bolt", "hi@bolt.test", true)).
Proof.
  apply (proj1 (proj2 (proj2 (supplier_resolution_first_primary_wins demo_links 102)))
           [(102, 7, "Acme", "sales@acme.test", false)]
           (102, 8, "Bolt", "hi@bolt.test", true)
           [(102, 6, "Dyn", "dyn@dyn.test", true)]).
  - reflexivity.
  - intros x Hx. apply list_elem_of_singleton in Hx. subst x. reflexivity.
  - reflexivity.
Defined.

(** ** Exceptions of the loop and of the view *)

Lemma alerts_loop_raise cfg rm am sm rows acc e :
  alerts_loop cfg rm am sm rows acc = Raise e ->
  exists q total, project_days cfg q total = Raise e.
Proof.
  revert acc. induction rows as [|row rows IH]; intros acc; simpl; [done|].
  destruct (_ =? 0); [apply IH|].
  destruct (project_days _ _ _) as [days|ex] eqn:Hd.
  - rewrite bind_Ok. apply IH.
  - rewrite bind_Raise. intros [= ->]. by eexists _, _.
Qed.

Lemma view_raise listing cfg db now cid e :
  low_stock_alerts_with listing cfg db now cid = Raise e ->
  (e = OverflowError /\ ~ windows_in_range cfg now)
  \/ (windows_in_range cfg now /\ candidate_rows db cid <> []
      /\ exists q total, project_days cfg q total = Raise e).
Proof.
  rewrite view_unfold.
  destruct (Company_get db cid); [|done].
  case_decide as Hw; [|intros [= <-]; by left].
  destruct (candidate_rows db cid) as [|row rows]; [done|].
  unfold alerts_for.
  destruct (alerts_loop _ _ _ _ _ _) as [alerts|ex] eqn:Hl; [done|].
  rewrite bind_Raise. intros [= ->]. right. split; [done|]. split; [done|].
  by apply alerts_loop_raise in Hl.
Qed.

(** C8.  The divisor of the average is the window clamped to at least 1,
    so for every window, zero and negative ones included, neither the
    average, nor the projection, nor the view raises [ZeroDivisionError]. *)
Theorem projection_never_divides_by_zero cfg q total db now cid :
  1 <= Z.max (SALES_AVG_WINDOW_DAYS cfg) 1
  /\ avg_daily_sales cfg total <> Raise ZeroDivisionError
  /\ project_days cfg q total <> Raise ZeroDivisionError
  /\ low_stock_alerts cfg db now cid <> Raise ZeroDivisionError.
Proof.
  split; [lia|]. split; [apply avg_daily_sales_no_zero_division|].
  split; [apply project_days_no_zero_division|].
  intros H. apply view_raise in H as [[H _]|(_ & _ & q' & total' & H)]; [done|].
  by apply project_days_no_zero_division in H.
Qed.

(** A window misconfigured to zero divides by one. *)
Example zero_window_is_clamped :
  project_days {| SALES_AVG_WINDOW_DAYS := 0; SALES_ACTIVITY_WINDOW_DAYS := 60 |}
    5 20 = Ok (Some 1).
Proof. vm_compute. reflexivity. Qed.

(** ** Projection in the alerts *)

Lemma project_days_some cfg q total c :
  project_days cfg q total = Ok (Some c) ->
  exists avg x d,
    int_truediv total (Z.max (SALES_AVG_WINDOW_DAYS cfg) 1) = Ok avg
    /\ float_gt0 avg = true
    /\ float_of_int q = Ok x
    /\ float_truediv x avg = Ok d
    /\ math_ceil d = Ok c.
Proof.
  unfold project_days, avg_daily_sales, int_float_truediv. intros H.
  apply bind_Ok_inv in H as (avg & Havg & H).
  destruct (float_gt0 avg) eqn:Hg; [|done].
  apply bind_Ok_inv in H as (d & Hd & H).
  apply bind_Ok_inv in Hd as (x & Hx & Hd).
  apply bind_Ok_inv in H as (c' & Hc & [= ->]).
  by exists avg, x, d.
Qed.

(** The alert of a row shows the row's product and stock. *)
Lemma alert_of_fields cfg db now cid row a :
  alert_of cfg db now cid row a ->
  product_id a = prod_id row.1.2
  /\ current_stock a = inv_quantity row.1.1
  /\ supplier a = preferred_supplier db (product_id a)
  /\ project_days cfg (current_stock a)
       (window_sales db cid (avg_since cfg now) (product_id a))
     = Ok (days_until_stockout a).
Proof. intros (days & Hd & ->). by destruct row as [[inv prod] wh]. Qed.

(** C1, as the code has it.  For an averaging window below [2 ^ 1000]
    days and every alert of a response: [days_until_stockout] is null iff
    the product's summed averaging-window sales are at most zero (the
    code tests [avg_daily_sales > 0]); otherwise it is [math.ceil] of the
    binary64 quotient of [float(current_stock)] by the binary64 average
    [total / max(window, 1)], and it is non-negative whenever the stock
    is. *)
Theorem days_until_stockout_projection cfg db now cid alerts n st a :
  SALES_AVG_WINDOW_DAYS cfg < 2 ^ 1000 ->
  low_stock_alerts cfg db now cid = Ok (JAlerts alerts n, st) ->
  a ∈ alerts ->
  let total := window_sales db cid (avg_since cfg now) (product_id a) in
  (days_until_stockout a = None <-> total <= 0)
  /\ forall c,
       days_until_stockout a = Some c ->
       (exists avg x d,
          int_truediv total (Z.max (SALES_AVG_WINDOW_DAYS cfg) 1) = Ok avg
          /\ float_of_int (current_stock a) = Ok x
          /\ float_truediv x avg = Ok d
          /\ math_ceil d = Ok c)
       /\ (0 <= current_stock a -> 0 <= c).
Proof.
  intros HW H Ha total.
  destruct (alert_in_view _ _ _ _ _ _ _ _ H Ha) as (row & _ & _ & Hal).
  apply alert_of_fields in Hal as (_ & _ & _ & Hd). fold total in Hd.
  split; [by apply (project_days_null_iff cfg (current_stock a))|].
  intros c Hc. rewrite Hc in Hd. split.
  - apply project_days_some in Hd as (avg & x & d & ? & _ & ? & ? & ?).
    by exists avg, x, d.
  - intros Hq. by apply (project_days_nonneg cfg (current_stock a) total).
Qed.

Lemma days_until_stockout_projection_witness :
  let a := one_product_alert 5 10 (Some 8) in
  let total :=
    window_sales (one_product_db 5 10 20) 1
      (avg_since source_config (100 * day)) (product_id a) in
  (days_until_stockout a = None <-> total <= 0)
  /\ forall c,
       days_until_stockout a = Some c ->
       (exists avg x d,
          int_truediv total (Z.max (SALES_AVG_WINDOW_DAYS source_config) 1) = Ok avg
          /\ float_of_int (current_stock a) = Ok x
          /\ float_truediv x avg = Ok d
          /\ math_ceil d = Ok c)
       /\ (0 <= current_stock a -> 0 <= c).
Proof.
  apply (days_until_stockout_projection source_config (one_product_db 5 10 20)
           (100 * day) 1 [one_product_alert 5 10 (Some 8)] 1 200).
  - vm_compute. reflexivity.
  - vm_compute. reflexivity.
  - left.
Defined.

(** C1 as stated fails twice.  A product whose only order line in the
    window is a return of 5 units is alerted with a null projection
    although its summed sales are -5, not 0.  And with stock 11 and 11
    units sold in a 30-day window the alert shows 31 days, while the
    exact ceiling of 11 / (11 / 30) is 30: the quotient is rounded twice
    in binary64 before the ceiling is taken. *)
Lemma days_null_iff_zero_sales_fails :
  (low_stock_alerts source_config (one_product_db 5 10 (-5)) (100 * day) 1
     = Ok (JAlerts [one_product_alert 5 10 None] 1, 200)
   /\ window_sales (one_product_db 5 10 (-5)) 1
        (avg_since source_config (100 * day)) 100 = -5)
  /\ (low_stock_alerts source_config (one_product_db 11 20 11) (100 * day) 1
        = Ok (JAlerts [one_product_alert 11 20 (Some 31)] 1, 200)
      /\ window_sales (one_product_db 11 20 11) 1
           (avg_since source_config (100 * day)) 100 = 11
      /\ exact_ceiling_days 11 11 30 = 30).
Proof. vm_compute. repeat split. Qed.

(** C10, as the code has it.  Two alerts of one response for the same
    product carry the same supplier and are null together; their
    projections are equal when their stock levels are. *)
Theorem same_product_alerts_share_supplier cfg db now cid alerts n st a1 a2 :
  low_stock_alerts cfg db now cid = Ok (JAlerts alerts n, st) ->
  a1 ∈ alerts -> a2 ∈ alerts ->
  product_id a1 = product_id a2 ->
  supplier a1 = supplier a2
  /\ (days_until_stockout a1 = None <-> days_until_stockout a2 = None)
  /\ (current_stock a1 = current_stock a2 ->
      days_until_stockout a1 = days_until_stockout a2).
Proof.
  intros H H1 H2 Hp.
  destruct (alert_in_view _ _ _ _ _ _ _ _ H H1) as (row1 & _ & _ & Hal1).
  destruct (alert_in_view _ _ _ _ _ _ _ _ H H2) as (row2 & _ & _ & Hal2).
  apply alert_of_fields in Hal1 as (_ & _ & Hs1 & Hd1).
  apply alert_of_fields in Hal2 as (_ & _ & Hs2 & Hd2).
  rewrite Hp in Hs1, Hd1. split; [congruence|]. split.
  - apply project_days_avg in Hd1 as (avg1 & Ha1 & ->).
    apply project_days_avg in Hd2 as (avg2 & Ha2 & ->).
    rewrite Ha1 in Ha2. by injection Ha2 as ->.
  - intros Hq. rewrite Hq in Hd1. congruence.
Qed.

Lemma same_product_alerts_share_supplier_witness :
  supplier demo_alert_p1_w1 = supplier demo_alert_p1_w2
  /\ (days_until_stockout demo_alert_p1_w1 = None
      <-> days_until_stockout demo_alert_p1_w2 = None)
  /\ (current_stock demo_alert_p1_w1 = current_stock demo_alert_p1_w2 ->
      days_until_stockout demo_alert_p1_w1 = days_until_stockout demo_alert_p1_w2).
Proof.
  apply (same_product_alerts_share_supplier source_config demo_db
           (100 * day) 1 demo_alerts 3 200).
  - vm_compute. reflexivity.
  - left.
  - right. right. left.
  - reflexivity.
Defined.

(** C10 as stated fails: product 100 is low in two warehouses with stock 5
    and 10; both alerts read the same sales and supplier, yet they show 8
    and 15 days, because the projection divides each position's own
    stock. *)
Lemma same_product_days_differ :
  low_stock_alerts source_config demo_db (100 * day) 1
    = Ok (JAlerts demo_alerts 3, 200)
  /\ demo_alert_p1_w1 ∈ demo_alerts /\ demo_alert_p1_w2 ∈ demo_alerts
  /\ product_id demo_alert_p1_w1 = product_id demo_alert_p1_w2
  /\ warehouse_id demo_alert_p1_w1 <> warehouse_id demo_alert_p1_w2
  /\ days_until_stockout demo_alert_p1_w1 = Some 8
  /\ days_until_stockout demo_alert_p1_w2 = Some 15
  /\ supplier demo_alert_p1_w1 = supplier demo_alert_p1_w2.
Proof.
  split; [vm_compute; reflexivity|].
  split; [left|]. split; [right; right; left|].
  by repeat split.
Qed.

(** ** Independence of the listing order *)

Lemma supplier_entry_lookup db ids pid :
  pid ∈ ids ->
  build_supplier_map (suppliers_q db ids) !! pid
  = entry_of_row <$> preferred_link (links_of pid (all_links db)).
Proof. intros Hin. by rewrite supplier_map_lookup, suppliers_q_links. Qed.

Lemma reverse_listing : valid_listing (fun rows => reverse (product_ids rows)).
Proof.
  intros rows pid. rewrite elem_of_reverse. apply product_ids_listing.
Qed.

(** C9, as the code has it.  With the same configuration, store and
    reference instant, two invocations return the same response, or raise
    the same exception, whatever the order in which each lists the set of
    product ids. *)
Theorem same_instant_same_response listing1 listing2 cfg db now cid :
  valid_listing listing1 -> valid_listing listing2 ->
  low_stock_alerts_with listing1 cfg db now cid
  = low_stock_alerts_with listing2 cfg db now cid.
Proof.
  intros H1 H2. rewrite !view_unfold.
  destruct (Company_get db cid); [|done].
  case_decide as Hw; [|done].
  destruct (candidate_rows db cid) as [|row0 rows0] eqn:Hrows; [done|].
  set (rows := row0 :: rows0). unfold alerts_for.
  f_equal. apply alerts_loop_ext. intros row Hrow pid.
  assert (Hin1 : pid ∈ listing1 rows) by (apply H1; by exists row).
  assert (Hin2 : pid ∈ listing2 rows) by (apply H2; by exists row).
  rewrite !sales_lookup, !supplier_entry_lookup by done. done.
Qed.

Lemma same_instant_same_response_witness :
  low_stock_alerts_with product_ids source_config demo_db (100 * day) 1
  = low_stock_alerts_with (fun rows => reverse (product_ids rows))
      source_config demo_db (100 * day) 1.
Proof.
  apply (same_instant_same_response product_ids
           (fun rows => reverse (product_ids rows))
           source_config demo_db (100 * day) 1).
  - exact product_ids_listing.
  - exact reverse_listing.
Defined.

(** C9 as stated fails: the store is the same, the company is the same,
    the windows are the same, and the response of day 130 differs from
    that of day 100, because the view reads the clock and the only sale of
    product 100, made on day 90, has left the 30-day averaging window
    while that of product 102 has left the 60-day activity window. *)
Lemma later_instant_changes_response :
  low_stock_alerts source_config demo_db (100 * day) 1
    = Ok (JAlerts demo_alerts 3, 200)
  /\ low_stock_alerts source_config demo_db (130 * day) 1
     = Ok (JAlerts
             [ {| product_id := 100; product_name := "P1"; sku := "SKU-1";
                  warehouse_id := 10; warehouse_name := "W1";
                  current_stock := 5; threshold := 10;
                  days_until_stockout := None; supplier := None |};
               {| product_id := 100; product_name := "P1"; sku := "SKU-1";
                  warehouse_id := 11; warehouse_name := "W2";
                  current_stock := 10; threshold := 10;
                  days_until_stockout := None; supplier := None |} ] 2, 200)
  /\ low_stock_alerts source_config demo_db (100 * day) 1
     <> low_stock_alerts source_config demo_db (130 * day) 1.
Proof. vm_compute. repeat split. discriminate. Qed.

(** ** Success of the view *)

Lemma Company_get_Some db cid :
  cid ∈ company_id <$> companies db -> is_Some (Company_get db cid).
Proof.
  intros Hc. destruct (Company_get db cid) eqn:Hg; [by eexists|].
  by apply Company_get_None in Hg.
Qed.

Lemma view_ok cfg db now cid :
  cid ∈ company_id <$> companies db ->
  windows_in_range cfg now ->
  (forall row, row ∈ candidate_rows db cid -> gate cfg db now cid row ->
     exists days,
       project_days cfg (inv_quantity row.1.1)
         (window_sales db cid (avg_since cfg now) (prod_id row.1.2)) = Ok days) ->
  exists alerts,
    low_stock_alerts cfg db now cid
      = Ok (JAlerts alerts (Z.of_nat (length alerts)), 200)
    /\ Forall2 (alert_of cfg db now cid)
         (filter (gate cfg db now cid) (candidate_rows db cid)) alerts.
Proof.
  intros Hc Hw Hp. apply Company_get_Some in Hc as [c Hc].
  assert (Hgen : forall r, low_stock_alerts cfg db now cid = r ->
            (exists alerts, r = Ok (JAlerts alerts (Z.of_nat (length alerts)), 200))
            -> exists alerts,
                 low_stock_alerts cfg db now cid
                   = Ok (JAlerts alerts (Z.of_nat (length alerts)), 200)
                 /\ Forall2 (alert_of cfg db now cid)
                      (filter (gate cfg db now cid) (candidate_rows db cid)) alerts).
  { intros r Hr [alerts ->]. exists alerts. split; [done|].
    by apply (view_inv _ _ _ _ _ _ _ _ product_ids_listing) in Hr as (_ & _ & _ & HF). }
  apply (Hgen _ eq_refl).
  unfold low_stock_alerts. rewrite view_unfold, Hc, decide_True by done.
  destruct (candidate_rows db cid) as [|row0 rows0] eqn:Hrows; [by exists []|].
  unfold alerts_for.
  destruct (alerts_loop_ok cfg db now cid
              (dict_of_rows (sales_since db cid (product_ids (row0 :: rows0))
                               (activity_since cfg now)))
              (dict_of_rows (sales_since db cid (product_ids (row0 :: rows0))
                               (avg_since cfg now)))
              (build_supplier_map (suppliers_q db (product_ids (row0 :: rows0))))
              (row0 :: rows0) []) as [out Hout].
  - intros row Hrow. by apply dicts_faithful_view; [apply product_ids_listing|].
  - done.
  - rewrite Hout, bind_Ok. by exists out.
Qed.

(** The windows of the source, 30 and 60 days, can be computed at every
    instant from the sixtieth day of year 1 on. *)
Lemma source_windows_in_range now :
  60 * day <= now <= DATETIME_MAX -> windows_in_range source_config now.
Proof.
  unfold windows_in_range, avg_since, activity_since, timedelta_days,
    MAX_DELTA_DAYS, DATETIME_MAX, day. simpl. lia.
Qed.

(** C6.  For an existing company whose two window starts can be computed
    (as those of the source's 30 and 60 days can), the business outcomes
    are ordinary responses.  With no low position, and likewise when no
    candidate passes the activity gate, the view answers 200 with an
    empty list and a count of 0.  When the integers the projection reads
    fit 64 bits (as integer columns and their sums do), the view answers
    200 with the alerts of the gated candidate rows, one per row and in
    their order, and the length of that list; an alert whose product has
    no supplier link carries a null supplier. *)
Theorem business_outcomes_are_not_errors cfg db now cid :
  cid ∈ company_id <$> companies db ->
  windows_in_range cfg now ->
  (candidate_rows db cid = [] ->
   low_stock_alerts cfg db now cid = Ok (JAlerts [] 0, 200))
  /\ ((forall row, row ∈ candidate_rows db cid -> ~ gate cfg db now cid row) ->
      low_stock_alerts cfg db now cid = Ok (JAlerts [] 0, 200))
  /\ (db_int64 cfg db now cid ->
      exists alerts,
        low_stock_alerts cfg db now cid
          = Ok (JAlerts alerts (Z.of_nat (length alerts)), 200)
        /\ Forall2 (alert_of cfg db now cid)
             (filter (gate cfg db now cid) (candidate_rows db cid)) alerts
        /\ forall a, a ∈ alerts ->
             links_of (product_id a) (all_links db) = [] -> supplier a = None).
Proof.
  intros Hc Hw.
  assert (Hgate : (forall row, row ∈ candidate_rows db cid ->
                     ~ gate cfg db now cid row) ->
                  low_stock_alerts cfg db now cid = Ok (JAlerts [] 0, 200)).
  { intros Hng. destruct (view_ok cfg db now cid Hc Hw) as (alerts & -> & HF).
    { intros row Hrow Hg. by destruct (Hng row). }
    rewrite filter_none in HF by done. by apply Forall2_nil_inv_l in HF as ->. }
  split; [|split; [done|]].
  - intros Hrows. apply Hgate. intros row Hrow. rewrite Hrows in Hrow.
    by apply elem_of_nil in Hrow.
  - intros (HW & Hq & Ht).
    destruct (view_ok cfg db now cid Hc Hw) as (alerts & Hv & HF).
    { intros [[inv prod] wh] Hrow _. apply project_days_int64; [|done..].
      apply candidate_rows_spec in Hrow. apply Hq. tauto. }
    exists alerts. split; [done|]. split; [done|]. intros a Ha Hl.
    destruct (Forall2_elem_of_r _ _ _ _ HF Ha) as (row & _ & Hal).
    apply alert_of_fields in Hal as (_ & _ & -> & _).
    unfold preferred_supplier. by rewrite Hl.
Qed.

Lemma demo_db_int64 : db_int64 source_config demo_db (100 * day) 1.
Proof.
  assert (Hb : forall z, -100 <= z <= 100 -> int64 z).
  { intros z Hz. unfold int64.
    assert (100 < 2 ^ 63) by (vm_compute; reflexivity). lia. }
  split; [apply Hb; simpl; lia|]. split.
  - intros inv Hin. simpl in Hin.
    repeat (apply elem_of_cons in Hin as [->|Hin]; [apply Hb; simpl; lia|]).
    by apply elem_of_nil in Hin.
  - intros pid. unfold window_sales.
    assert (Hw : window_items demo_db 1 (avg_since source_config (100 * day))
                 = [ {| oi_order_id := 1000; oi_product_id := 100;
                        oi_quantity := 20; oi_created_at := 90 * day |} ])
      by (vm_compute; reflexivity).
    rewrite Hw. destruct (decide (100 = pid)) as [Hp|Hp].
    + rewrite filter_cons_True by done. apply Hb. vm_compute. split; discriminate.
    + rewrite filter_cons_False by done. apply Hb. vm_compute. split; discriminate.
Qed.

Lemma business_outcomes_are_not_errors_witness :
  (exists alerts,
     low_stock_alerts source_config demo_db (100 * day) 1
       = Ok (JAlerts alerts (Z.of_nat (length alerts)), 200)
     /\ Forall2 (alert_of source_config demo_db (100 * day) 1)
          (filter (gate source_config demo_db (100 * day) 1)
             (candidate_rows demo_db 1)) alerts
     /\ forall a, a ∈ alerts ->
          links_of (product_id a) (all_links demo_db) = [] -> supplier a = None)
  /\ low_stock_alerts source_config (one_product_db 5 10 0) (100 * day) 1
     = Ok (JAlerts [] 0, 200).
Proof.
  assert (Hw : windows_in_range source_config (100 * day))
    by (apply source_windows_in_range; vm_compute; split; discriminate).
  split.
  - apply (business_outcomes_are_not_errors source_config demo_db (100 * day) 1);
      [simpl; left | exact Hw | exact demo_db_int64].
  - apply (business_outcomes_are_not_errors source_config
             (one_product_db 5 10 0) (100 * day) 1); [simpl; left | exact Hw |].
    intros row Hrow. simpl in Hrow. apply list_elem_of_singleton in Hrow.
    subst row. vm_compute. intros Hg. by apply Hg.
Defined.

(** * Further properties of the view *)

(** ** Shape of the responses *)

Lemma Forall2_elem_of_l {A B} (P : A -> B -> Prop) l k x :
  Forall2 P l k -> x ∈ l -> exists y, y ∈ k /\ P x y.
Proof.
  induction 1 as [|x' y l k HP HF IH]; intros Hx.
  - by apply elem_of_nil in Hx.
  - apply elem_of_cons in Hx as [->|Hx].
    + exists y. split; [left | done].
    + destruct (IH Hx) as (y' & ? & ?). exists y'. split; [by right | done].
Qed.

(** X1.  A response of the view is of one of two shapes: status 404 with
    the body "Company not found", exactly when no company row carries the
    id; or status 200 with an alert list and [total_alerts] equal to the
    length of that list, exactly when such a row exists. *)
Theorem response_shape cfg db now cid body st :
  low_stock_alerts cfg db now cid = Ok (body, st) ->
  (st = 404 /\ body = JError "Company not found"
   /\ cid ∉ company_id <$> companies db)
  \/ (st = 200 /\ cid ∈ company_id <$> companies db
      /\ exists alerts, body = JAlerts alerts (Z.of_nat (length alerts))).
Proof.
  unfold low_stock_alerts. rewrite view_unfold. intros H.
  destruct (Company_get db cid) as [c|] eqn:Hc.
  - right.
    assert (Hin : cid ∈ company_id <$> companies db).
    { destruct (decide (cid ∈ company_id <$> companies db)) as [|Hn]; [done|].
      apply Company_get_None in Hn. congruence. }
    case_decide as Hw; [|done].
    destruct (candidate_rows db cid) as [|row rows].
    + injection H as <- <-. split; [done|]. split; [done|]. by exists [].
    + apply (alerts_for_inv product_ids) in H as (-> & alerts & -> & _);
        [|apply product_ids_listing].
      split; [done|]. split; [done|]. by exists alerts.
  - left. injection H as <- <-. apply Company_get_None in Hc. by repeat split.
Qed.

Lemma response_shape_witness :
  (200 = 404 /\ JAlerts demo_alerts 3 = JError "Company not found"
   /\ 1 ∉ company_id <$> companies demo_db)
  \/ (200 = 200 /\ 1 ∈ company_id <$> companies demo_db
      /\ exists alerts,
           JAlerts demo_alerts 3 = JAlerts alerts (Z.of_nat (length alerts))).
Proof.
  apply (response_shape source_config demo_db (100 * day) 1).
  vm_compute. reflexivity.
Defined.

(** ** Alerts and the rows behind them *)

(** X2.  Every alert is backed by rows of the store: an inventory row
    with the alert's stock and threshold, the product row and the
    warehouse row it references, whose names the alert shows, and that
    warehouse belongs to the requested company. *)
Theorem alerts_backed_by_company_rows cfg db now cid alerts n st a :
  low_stock_alerts cfg db now cid = Ok (JAlerts alerts n, st) ->
  a ∈ alerts ->
  exists inv prod wh,
    inv ∈ inventories db /\ prod ∈ products db /\ wh ∈ warehouses db
    /\ inv_product_id inv = prod_id prod /\ inv_warehouse_id inv = wh_id wh
    /\ wh_company_id wh = cid
    /\ product_id a = prod_id prod /\ product_name a = prod_name prod
    /\ sku a = prod_sku prod
    /\ warehouse_id a = wh_id wh /\ warehouse_name a = wh_name wh
    /\ current_stock a = inv_quantity inv /\ threshold a = inv_threshold inv.
Proof.
  intros H Ha.
  destruct (alert_in_view _ _ _ _ _ _ _ _ H Ha)
    as ([[inv prod] wh] & Hrow & _ & days & _ & ->).
  apply candidate_rows_spec in Hrow as (? & ? & ? & ? & ? & ? & ?).
  exists inv, prod, wh. by repeat split.
Qed.

Lemma alerts_backed_by_company_rows_witness :
  exists inv prod wh,
    inv ∈ inventories demo_db /\ prod ∈ products demo_db
    /\ wh ∈ warehouses demo_db
    /\ inv_product_id inv = prod_id prod /\ inv_warehouse_id inv = wh_id wh
    /\ wh_company_id wh = 1
    /\ product_id demo_alert_p1_w2 = prod_id prod
    /\ product_name demo_alert_p1_w2 = prod_name prod
    /\ sku demo_alert_p1_w2 = prod_sku prod
    /\ warehouse_id demo_alert_p1_w2 = wh_id wh
    /\ warehouse_name demo_alert_p1_w2 = wh_name wh
    /\ current_stock demo_alert_p1_w2 = inv_quantity inv
    /\ threshold demo_alert_p1_w2 = inv_threshold inv.
Proof.
  apply (alerts_backed_by_company_rows source_config demo_db (100 * day) 1
           demo_alerts 3 200).
  - vm_compute. reflexivity.
  - right. right. left.
Defined.

(** X3.  No eligible position is dropped: when the view answers, every
    inventory row at or below its threshold, in a warehouse of the company
    and with an existing product whose activity-window sales are not zero,
    has an alert showing its product, warehouse, stock and threshold. *)
Theorem eligible_positions_are_alerted cfg db now cid alerts n st inv prod wh :
  low_stock_alerts cfg db now cid = Ok (JAlerts alerts n, st) ->
  inv ∈ inventories db -> prod ∈ products db -> wh ∈ warehouses db ->
  inv_product_id inv = prod_id prod -> inv_warehouse_id inv = wh_id wh ->
  wh_company_id wh = cid ->
  inv_quantity inv <= inv_threshold inv ->
  window_sales db cid (activity_since cfg now) (prod_id prod) <> 0 ->
  exists a,
    a ∈ alerts
    /\ product_id a = prod_id prod /\ warehouse_id a = wh_id wh
    /\ current_stock a = inv_quantity inv /\ threshold a = inv_threshold inv.
Proof.
  intros H Hinv Hprod Hwh Hp Hw Hc Hq Hact.
  apply (view_inv _ _ _ _ _ _ _ _ product_ids_listing) in H as (_ & _ & _ & HF).
  assert (Hrow : (inv, prod, wh)
                 ∈ filter (gate cfg db now cid) (candidate_rows db cid)).
  { apply list_elem_of_filter. split; [done|].
    apply candidate_rows_spec. by repeat split. }
  destruct (Forall2_elem_of_l _ _ _ _ HF Hrow) as (a & Ha & days & _ & ->).
  eexists. split; [done|]. by repeat split.
Qed.

Lemma eligible_positions_are_alerted_witness :
  exists a,
    a ∈ demo_alerts
    /\ product_id a = 102 /\ warehouse_id a = 10
    /\ current_stock a = 4 /\ threshold a = 9.
Proof.
  apply (eligible_positions_are_alerted source_config demo_db (100 * day) 1
           demo_alerts 3 200
           {| inv_product_id := 102; inv_warehouse_id := 10;
              inv_quantity := 4; inv_threshold := 9 |}
           {| prod_id := 102; prod_name := "P3"; prod_sku := "SKU-3" |}
           {| wh_id := 10; wh_name := "W1"; wh_company_id := 1 |}).
  - vm_compute. reflexivity.
  - simpl. right. right. left.
  - simpl. right. right. left.
  - simpl. left.
  - reflexivity.
  - reflexivity.
  - reflexivity.
  - simpl. lia.
  - vm_compute. discriminate.
Defined.

(** ** The supplier of an alert *)

Lemma links_of_all_links db pid r :
  r ∈ links_of pid (all_links db) <->
  exists ps s,
    linked db pid ps s
    /\ r = (ps_product_id ps, sup_id s, sup_name s, sup_contact_email s,
            ps_is_primary ps).
Proof.
  unfold links_of, all_links, linked. rewrite list_elem_of_filter, list_elem_of_bind.
  split.
  - intros (Hp & ps & H & Hps).
    apply list_elem_of_bind in H as (s & H & Hs).
    apply list_elem_of_filter in Hs as [Hid Hs].
    apply list_elem_of_singleton in H as ->.
    exists ps, s. by repeat split.
  - intros (ps & s & (Hps & Hs & Hp & Hid) & ->). split; [done|].
    exists ps. split; [|done]. apply list_elem_of_bind. exists s.
    split; [left | by apply list_elem_of_filter].
Qed.

Lemma preferred_link_None links : preferred_link links = None <-> links = [].
Proof.
  unfold preferred_link. split; [|by intros ->].
  destruct (head (filter _ links)); [done|]. by destruct links.
Qed.

Lemma preferred_link_Some links r :
  preferred_link links = Some r ->
  r ∈ links
  /\ ((exists x, x ∈ links /\ row_is_primary x = true) ->
      row_is_primary r = true).
Proof.
  unfold preferred_link.
  destruct (head (filter _ links)) as [y|] eqn:Hy.
  - intros [= ->]. by apply head_Some_elem_of, list_elem_of_filter in Hy as [Hp Hr].
  - intros Hh. split; [by apply head_Some_elem_of|].
    intros (x & Hx & Hp).
    assert (Hin : x ∈ filter (fun r => row_is_primary r = true) links)
      by by apply list_elem_of_filter.
    destruct (filter _ links); [by apply elem_of_nil in Hin | done].
Qed.

(** X4.  The supplier of an alert is null exactly when the product has no
    link to an existing supplier row.  Otherwise it is the id, name and
    contact email of a supplier linked to the alert's product, and of one
    linked as primary whenever the product has a primary link. *)
Theorem alert_supplier_is_a_linked_supplier cfg db now cid alerts n st a :
  low_stock_alerts cfg db now cid = Ok (JAlerts alerts n, st) ->
  a ∈ alerts ->
  (supplier a = None <-> forall ps s, ~ linked db (product_id a) ps s)
  /\ forall info,
       supplier a = Some info ->
       exists ps s,
         linked db (product_id a) ps s /\ info = info_of_supplier s
         /\ ((exists ps' s', linked db (product_id a) ps' s'
                             /\ ps_is_primary ps' = true) ->
             ps_is_primary ps = true).
Proof.
  intros H Ha.
  destruct (alert_in_view _ _ _ _ _ _ _ _ H Ha) as (row & _ & _ & Hal).
  apply alert_of_fields in Hal as (_ & _ & -> & _).
  unfold preferred_supplier. set (pid := product_id a).
  destruct (preferred_link (links_of pid (all_links db))) as [r|] eqn:Hr; simpl.
  - apply preferred_link_Some in Hr as [Hin Hprim].
    apply links_of_all_links in Hin as (ps & s & Hl & ->). split.
    + split; [done|]. intros Hn. by destruct (Hn ps s).
    + intros info [= <-]. exists ps, s. split; [done|]. split; [done|].
      intros (ps' & s' & Hl' & Hp'). apply Hprim.
      exists (ps_product_id ps', sup_id s', sup_name s', sup_contact_email s',
              ps_is_primary ps').
      split; [|exact Hp']. apply links_of_all_links. by exists ps', s'.
  - apply preferred_link_None in Hr. split; [|done]. split; [|done].
    intros _ ps s Hl.
    assert (Hin : (ps_product_id ps, sup_id s, sup_name s, sup_contact_email s,
                   ps_is_primary ps) ∈ links_of pid (all_links db))
      by (apply links_of_all_links; by exists ps, s).
    rewrite Hr in Hin. by apply elem_of_nil in Hin.
Qed.

Lemma alert_supplier_is_a_linked_supplier_witness :
  (supplier demo_alert_p3_w1 = None
   <-> forall ps s, ~ linked demo_db (product_id demo_alert_p3_w1) ps s)
  /\ forall info,
       supplier demo_alert_p3_w1 = Some info ->
       exists ps s,
         linked demo_db (product_id demo_alert_p3_w1) ps s
         /\ info = info_of_supplier s
         /\ ((exists ps' s', linked demo_db (product_id demo_alert_p3_w1) ps' s'
                             /\ ps_is_primary ps' = true) ->
             ps_is_primary ps = true).
Proof.
  apply (alert_supplier_is_a_linked_supplier source_config demo_db (100 * day) 1
           demo_alerts 3 200).
  - vm_compute. reflexivity.
  - right. left.
Defined.

(** ** Exceptions *)









(** ** Projection and stock *)

Lemma Ok_inj {A} (a b : A) : Ok a = Ok b -> a = b.
Proof. congruence. Qed.

Lemma math_ceil_finite_pos m e c :
  math_ceil (S754_finite false m e) = Ok c -> 1 <= c.
Proof.
  simpl. intros [= <-]. destruct e as [|k|k].
  - lia.
  - pose proof (Z.pow_pos_nonneg 2 (Z.pos k)). nia.
  - assert (Z.neg m / 2 ^ Z.pos k < 0); [|lia].
    apply Z.div_lt_upper_bound; [apply Z.pow_pos_nonneg; lia | lia].
Qed.

Lemma math_ceil_finite_neg m e c :
  math_ceil (S754_finite true m e) = Ok c -> c <= 0.
Proof.
  simpl. intros [= <-]. destruct e as [|k|k].
  - lia.
  - pose proof (Z.pow_pos_nonneg 2 (Z.pos k)). nia.
  - assert (0 <= Z.pos m / 2 ^ Z.pos k); [|lia].
    apply Z.div_pos; [lia | apply Z.pow_pos_nonneg; lia].
Qed.

Lemma project_days_stock_sign cfg q total c :
  int64 (SALES_AVG_WINDOW_DAYS cfg) -> int64 total ->
  project_days cfg q total = Ok (Some c) ->
  (q = 0 -> c = 0) /\ (0 < q -> 1 <= c) /\ (q < 0 -> c <= 0).
Proof.
  intros HW Ht H.
  apply project_days_some in H as (avg & x & d & Havg & Hg & Hx & Hd & Hc).
  set (b := Z.max (SALES_AVG_WINDOW_DAYS cfg) 1) in *.
  assert (Hb : 1 <= b) by lia.
  assert (Hdb : 1 <= Zdigits2 b <= 64).
  { apply Zdigits2_int64; [lia|]. unfold int64 in *. lia. }
  assert (Ht0 : total <> 0).
  { intros ->. rewrite int_truediv_zero in Havg by done. by injection Havg as <-. }
  pose proof (Zdigits2_int64 total Ht0 Ht) as Hdt.
  pose proof (int_truediv_spec total b Ht0 Hb) as Hs. rewrite Havg in Hs.
  destruct avg as [s|s| |s m e]; try (exfalso; apply Hs; lia).
  destruct Hs as [_ Hm]; [lia|].
  apply float_gt0_spec in Hg. subst s.
  destruct (Z.eq_dec q 0) as [->|Hq0].
  { rewrite float_of_int_zero in Hx. injection Hx as <-.
    simpl in Hd. injection Hd as <-. simpl in Hc. injection Hc as <-. lia. }
  pose proof (float_of_int_spec q Hq0) as Hf. rewrite Hx in Hf.
  destruct x as [sx|sx| |sx mx ex]; try done. destruct Hf as [-> Hmx].
  assert (Hd' : d = SFdiv dbl_prec dbl_emax (S754_finite (q <? 0) mx ex)
                      (S754_finite false m e))
    by (apply (Ok_inj (A := float)); by rewrite <- Hd).
  clear Hd.
  assert (Hq1 : 1 <= Zdigits2 q).
  { destruct q as [|p|p]; [done | |]; apply (Zdigits2_pos (Z.pos p)); lia. }
  pose proof (SFdiv_finite_spec (q <? 0) mx ex false m e) as Hdiv.
  rewrite xorb_false_r, <- Hd' in Hdiv.
  assert (Hmag : dbl_emin + 53 <= mag mx ex - mag m e)
    by (unfold dbl_emin; lia).
  specialize (Hdiv Hmag).
  destruct d as [sd|sd| |sd md ed]; [done | done | done |].
  destruct Hdiv as [-> _].
  destruct (Z.ltb_spec q 0).
  - apply math_ceil_finite_neg in Hc. lia.
  - apply math_ceil_finite_pos in Hc. lia.
Qed.

(** X6.  When the window and the product's averaging-window total fit 64
    bits, a projection that is present follows the stock: it is 0 for an
    empty position, at least 1 for a position that still holds stock, and
    at most 0 for a negative stock. *)
Theorem days_follow_stock_sign cfg db now cid alerts n st a c :
  int64 (SALES_AVG_WINDOW_DAYS cfg) ->
  int64 (window_sales db cid (avg_since cfg now) (product_id a)) ->
  low_stock_alerts cfg db now cid = Ok (JAlerts alerts n, st) ->
  a ∈ alerts ->
  days_until_stockout a = Some c ->
  (current_stock a = 0 -> c = 0)
  /\ (0 < current_stock a -> 1 <= c)
  /\ (current_stock a < 0 -> c <= 0).
Proof.
  intros HW Ht H Ha Hc.
  destruct (alert_in_view _ _ _ _ _ _ _ _ H Ha) as (row & _ & _ & Hal).
  apply alert_of_fields in Hal as (_ & _ & _ & Hd). rewrite Hc in Hd.
  by apply (project_days_stock_sign cfg _ _ _ HW Ht Hd).
Qed.

Lemma days_follow_stock_sign_witness :
  (current_stock demo_alert_p1_w1 = 0 -> 8 = 0)
  /\ (0 < current_stock demo_alert_p1_w1 -> 1 <= 8)
  /\ (current_stock demo_alert_p1_w1 < 0 -> 8 <= 0).
Proof.
  apply (days_follow_stock_sign source_config demo_db (100 * day) 1
           demo_alerts 3 200 demo_alert_p1_w1 8).
  - vm_compute. split; [discriminate | reflexivity].
  - vm_compute. split; [discriminate | reflexivity].
  - vm_compute. reflexivity.
  - left.
  - reflexivity.
Defined.

(** ** Sales windows *)

Lemma window_items_spec db cid since oi :
  oi ∈ window_items db cid since <->
  oi ∈ order_items db /\ sold_by db cid oi /\ since <= oi_created_at oi.
Proof.
  unfold window_items, sold_by. rewrite list_elem_of_bind. split.
  - intros (oi' & H & Hoi). apply list_elem_of_bind in H as (o & H & Ho).
    apply list_elem_of_filter in Ho as [Hid Ho].
    case_decide as Hd; [|by apply elem_of_nil in H].
    apply list_elem_of_singleton in H as ->. destruct Hd.
    split; [done|]. split; [by exists o | done].
  - intros (Hoi & (o & Ho & Hid & Hc) & Hs). exists oi. split; [|done].
    apply list_elem_of_bind. exists o. split; [|by apply list_elem_of_filter].
    rewrite decide_True by done. left.
Qed.

(** A later window start keeps the lines of the earlier one that are
    recent enough, in the same order. *)
Lemma window_items_later db cid s1 s2 :
  s1 <= s2 ->
  window_items db cid s2
  = filter (fun oi => s2 <= oi_created_at oi) (window_items db cid s1).
Proof.
  intros Hs. unfold window_items. rewrite filter_bind.
  apply list_bind_ext; [|done]. intros oi. rewrite filter_bind.
  apply list_bind_ext; [|done]. intros o.
  destruct (decide (s2 <= oi_created_at oi)) as [Hle|Hgt].
  - repeat case_decide; rewrite ?filter_cons_True by done; try done;
      exfalso; intuition lia.
  - repeat case_decide; rewrite ?filter_cons_False by done; try done;
      exfalso; intuition lia.
Qed.

Lemma filter_comm {A} (P Q : A -> Prop) `{!forall x, Decision (P x)}
    `{!forall x, Decision (Q x)} (l : list A) :
  filter P (filter Q l) = filter Q (filter P l).
Proof.
  induction l as [|x l IH]; [done|].
  destruct (decide (P x)), (decide (Q x));
    rewrite ?filter_cons_True, ?filter_cons_False by done;
    rewrite ?filter_cons_True, ?filter_cons_False by done; by rewrite ?IH.
Qed.

Lemma sum_Z_cons x l : sum_Z (x :: l) = x + sum_Z l.
Proof. reflexivity. Qed.

Lemma sum_Z_filter_le {A} (f : A -> Z) (P : A -> Prop)
    `{!forall x, Decision (P x)} (l : list A) :
  (forall x, x ∈ l -> 0 <= f x) ->
  0 <= sum_Z (f <$> filter P l) <= sum_Z (f <$> l).
Proof.
  induction l as [|x l IH]; intros Hl; [simpl; lia|].
  assert (0 <= f x) by (apply Hl; left).
  destruct IH as [IH1 IH2]; [intros; apply Hl; by right|].
  destruct (decide (P x)).
  - rewrite filter_cons_True by done. rewrite !fmap_cons, !sum_Z_cons. lia.
  - rewrite filter_cons_False by done. rewrite !fmap_cons, !sum_Z_cons. lia.
Qed.

Lemma window_sales_mono db cid s1 s2 pid :
  (forall oi, oi ∈ order_items db -> 0 <= oi_quantity oi) ->
  s1 <= s2 ->
  0 <= window_sales db cid s2 pid <= window_sales db cid s1 pid.
Proof.
  intros Hq Hs. unfold window_sales.
  rewrite (window_items_later db cid s1 s2 Hs), filter_comm.
  apply sum_Z_filter_le. intros oi Hoi.
  apply list_elem_of_filter in Hoi as [_ Hoi].
  apply window_items_spec in Hoi as [Hoi _]. by apply Hq.
Qed.

(** X7.  When no order line has a negative quantity (and the averaging
    window is below [2 ^ 1000] days), the projection of an alert is null
    exactly when the product's summed averaging-window sales are zero. *)
Theorem null_projection_iff_no_sales cfg db now cid alerts n st a :
  (forall oi, oi ∈ order_items db -> 0 <= oi_quantity oi) ->
  SALES_AVG_WINDOW_DAYS cfg < 2 ^ 1000 ->
  low_stock_alerts cfg db now cid = Ok (JAlerts alerts n, st) ->
  a ∈ alerts ->
  days_until_stockout a = None
  <-> window_sales db cid (avg_since cfg now) (product_id a) = 0.
Proof.
  intros Hq HW H Ha.
  destruct (alert_in_view _ _ _ _ _ _ _ _ H Ha) as (row & _ & _ & Hal).
  apply alert_of_fields in Hal as (_ & _ & _ & Hd).
  rewrite (project_days_null_iff cfg _ _ _ HW Hd).
  pose proof (window_sales_mono db cid (avg_since cfg now) (avg_since cfg now)
                (product_id a) Hq) as Hm.
  lia.
Qed.

Lemma demo_quantities_nonneg oi :
  oi ∈ order_items demo_db -> 0 <= oi_quantity oi.
Proof.
  simpl. intros Hoi.
  repeat (apply elem_of_cons in Hoi as [->|Hoi]; [simpl; lia|]).
  by apply elem_of_nil in Hoi.
Qed.

Lemma null_projection_iff_no_sales_witness :
  days_until_stockout demo_alert_p3_w1 = None
  <-> window_sales demo_db 1 (avg_since source_config (100 * day))
        (product_id demo_alert_p3_w1) = 0.
Proof.
  apply (null_projection_iff_no_sales source_config demo_db (100 * day) 1
           demo_alerts 3 200).
  - exact demo_quantities_nonneg.
  - vm_compute. reflexivity.
  - vm_compute. reflexivity.
  - right. left.
Defined.

Lemma view_alerts_windows listing cfg db now cid alerts n st :
  low_stock_alerts_with listing cfg db now cid = Ok (JAlerts alerts n, st) ->
  windows_in_range cfg now.
Proof.
  rewrite view_unfold. destruct (Company_get db cid); [|done].
  by case_decide.
Qed.

(** X8.  When no order line has a negative quantity and the averaging
    window is not longer than the activity window, the gate never hides a
    product with recent sales.  For every candidate row the total the
    view reads from its averaging dictionary lies between 0 and the one
    it reads from its activity dictionary; and when the former is
    positive the response holds an alert for that position, with a
    projection that is not null. *)
Theorem gate_keeps_recent_sellers cfg db now cid alerts n st inv prod wh :
  (forall oi, oi ∈ order_items db -> 0 <= oi_quantity oi) ->
  SALES_AVG_WINDOW_DAYS cfg <= SALES_ACTIVITY_WINDOW_DAYS cfg ->
  low_stock_alerts cfg db now cid = Ok (JAlerts alerts n, st) ->
  (inv, prod, wh) ∈ candidate_rows db cid ->
  let ids := product_ids (candidate_rows db cid) in
  let recent_sales_map :=
    dict_of_rows (sales_since db cid ids (activity_since cfg now)) in
  let avg_sales_map :=
    dict_of_rows (sales_since db cid ids (avg_since cfg now)) in
  0 <= dict_get0 avg_sales_map (prod_id prod)
    <= dict_get0 recent_sales_map (prod_id prod)
  /\ (0 < dict_get0 avg_sales_map (prod_id prod) ->
      exists a,
        a ∈ alerts
        /\ product_id a = prod_id prod /\ warehouse_id a = wh_id wh
        /\ current_stock a = inv_quantity inv /\ threshold a = inv_threshold inv
        /\ days_until_stockout a <> None).
Proof.
  intros Hq HW H Hrow ids recent_sales_map avg_sales_map.
  assert (Hin : prod_id prod ∈ ids)
    by (apply product_ids_listing; by exists (inv, prod, wh)).
  unfold recent_sales_map, avg_sales_map. rewrite !sales_lookup by done.
  assert (Hs : activity_since cfg now <= avg_since cfg now).
  { unfold activity_since, avg_since, timedelta_days. lia. }
  pose proof (window_sales_mono db cid _ _ (prod_id prod) Hq Hs) as Hm.
  split; [done|]. intros Hpos.
  pose proof (view_alerts_windows _ _ _ _ _ _ _ _ H) as [[Habs _] _].
  apply (view_inv _ _ _ _ _ _ _ _ product_ids_listing) in H as (_ & _ & _ & HF).
  assert (Hg : (inv, prod, wh)
               ∈ filter (gate cfg db now cid) (candidate_rows db cid)).
  { apply list_elem_of_filter. split; [|done]. unfold gate. simpl. lia. }
  destruct (Forall2_elem_of_l _ _ _ _ HF Hg) as (a & Ha & days & Hd & ->).
  exists (make_alert (inv, prod, wh) days (preferred_supplier db (prod_id prod))).
  split; [done|]. repeat split. simpl in *. intros ->.
  assert (HW' : SALES_AVG_WINDOW_DAYS cfg < 2 ^ 1000).
  { assert (999999999 < 2 ^ 1000) by (vm_compute; reflexivity).
    unfold MAX_DELTA_DAYS in Habs. lia. }
  pose proof (project_days_null_iff cfg _ _ _ HW' Hd) as [Hnull _].
  specialize (Hnull eq_refl). lia.
Qed.

Lemma gate_keeps_recent_sellers_witness :
  let ids := product_ids (candidate_rows demo_db 1) in
  let recent_sales_map :=
    dict_of_rows (sales_since demo_db 1 ids
                    (activity_since source_config (100 * day))) in
  let avg_sales_map :=
    dict_of_rows (sales_since demo_db 1 ids
                    (avg_since source_config (100 * day))) in
  0 <= dict_get0 avg_sales_map 100 <= dict_get0 recent_sales_map 100
  /\ (0 < dict_get0 avg_sales_map 100 ->
      exists a,
        a ∈ demo_alerts
        /\ product_id a = 100 /\ warehouse_id a = 11
        /\ current_stock a = 10 /\ threshold a = 10
        /\ days_until_stockout a <> None).
Proof.
  apply (gate_keeps_recent_sellers source_config demo_db (100 * day) 1
           demo_alerts 3 200
           {| inv_product_id := 100; inv_warehouse_id := 11;
              inv_quantity := 10; inv_threshold := 10 |}
           {| prod_id := 100; prod_name := "P1"; prod_sku := "SKU-1" |}
           {| wh_id := 11; wh_name := "W2"; wh_company_id := 1 |}).
  - exact demo_quantities_nonneg.
  - vm_compute. discriminate.
  - vm_compute. reflexivity.
  - simpl. right. right. right. left.
Defined.

(** ** What the response reads of the order lines *)

Lemma sum_Z_Permutation l k : l ≡ₚ k -> sum_Z l = sum_Z k.
Proof.
  induction 1 as [|x l k _ IH|x y l|l k m _ IH1 _ IH2]; simpl;
    rewrite ?sum_Z_cons; try lia; congruence.
Qed.

(** Stores that differ only in their order lines and agree on every
    window total give the same response. *)
Lemma view_window_sales_ext cfg db items now cid :
  (forall since pid,
     window_sales (set_order_items db items) cid since pid
     = window_sales db cid since pid) ->
  low_stock_alerts cfg (set_order_items db items) now cid
  = low_stock_alerts cfg db now cid.
Proof.
  intros Hw. unfold low_stock_alerts. rewrite !view_unfold.
  change (Company_get (set_order_items db items) cid) with (Company_get db cid).
  change (candidate_rows (set_order_items db items) cid)
    with (candidate_rows db cid).
  destruct (Company_get db cid); [|done].
  case_decide as Hr; [|done].
  destruct (candidate_rows db cid) as [|row0 rows0]; [done|].
  set (rows := row0 :: rows0). unfold alerts_for.
  change (suppliers_q (set_order_items db items)) with (suppliers_q db).
  f_equal. apply alerts_loop_ext. intros row Hrow pid.
  assert (Hin : pid ∈ product_ids rows)
    by (apply product_ids_listing; by exists row).
  rewrite !sales_lookup by done. by rewrite !Hw.
Qed.

(** X9.  The response does not depend on the order in which the order
    lines are stored: a store whose order lines are a permutation of
    another's, all else equal, gets the same response. *)
Theorem order_lines_order_is_irrelevant cfg db items now cid :
  items ≡ₚ order_items db ->
  low_stock_alerts cfg (set_order_items db items) now cid
  = low_stock_alerts cfg db now cid.
Proof.
  intros Hp. apply view_window_sales_ext. intros since pid.
  unfold window_sales. apply sum_Z_Permutation.
  apply fmap_Permutation, filter_Permutation.
  unfold window_items. by apply bind_Permutation.
Qed.

Lemma order_lines_order_is_irrelevant_witness :
  low_stock_alerts source_config
    (set_order_items demo_db (reverse (order_items demo_db))) (100 * day) 1
  = low_stock_alerts source_config demo_db (100 * day) 1.
Proof.
  apply (order_lines_order_is_irrelevant source_config demo_db
           (reverse (order_items demo_db)) (100 * day) 1).
  apply reverse_Permutation.
Defined.

(** X10.  Order lines that are not sold by the company (their order is
    missing or belongs to another company) never change the company's
    response, whatever their product, quantity and date. *)
Theorem foreign_order_lines_are_ignored cfg db extra now cid :
  (forall oi, oi ∈ extra -> ~ sold_by db cid oi) ->
  low_stock_alerts cfg (set_order_items db (order_items db ++ extra)) now cid
  = low_stock_alerts cfg db now cid.
Proof.
  intros Hx. apply view_window_sales_ext. intros since pid.
  unfold window_sales. f_equal. f_equal.
  unfold window_items at 1. simpl order_items. simpl orders.
  rewrite bind_app.
  assert (Hnil : extra ≫= (fun oi =>
            filter (fun o => oi_order_id oi = order_id o) (orders db) ≫=
              fun o => if decide (order_company_id o = cid
                                  /\ since <= oi_created_at oi)
                       then [oi] else []) = []).
  { induction extra as [|oi extra IH]; [done|].
    rewrite bind_cons, IH by (intros; apply Hx; by right).
    rewrite app_nil_r.
    assert (Hoi : ~ sold_by db cid oi) by (apply Hx; left).
    clear IH Hx. unfold sold_by in Hoi.
    induction (orders db) as [|o os IHo]; [done|].
    destruct (decide (oi_order_id oi = order_id o)) as [Hid|Hid].
    - rewrite filter_cons_True, bind_cons by done.
      rewrite decide_False.
      + simpl. apply IHo. intros (o' & Ho' & ?). apply Hoi. exists o'.
        split; [by right | done].
      + intros [Hc _]. apply Hoi. exists o. split; [left | done].
    - rewrite filter_cons_False by done. apply IHo.
      intros (o' & Ho' & ?). apply Hoi. exists o'. split; [by right | done]. }
  rewrite Hnil, app_nil_r. done.
Qed.

Lemma foreign_order_lines_are_ignored_witness :
  low_stock_alerts source_config
    (set_order_items demo_orders_db
       (order_items demo_orders_db ++ [foreign_item])) (100 * day) 1
  = low_stock_alerts source_config demo_orders_db (100 * day) 1.
Proof.
  apply (foreign_order_lines_are_ignored source_config demo_orders_db
           [foreign_item] (100 * day) 1).
  intros oi Hoi (o & Ho & Hid & Hc).
  apply list_elem_of_singleton in Hoi. subst oi. simpl in Ho.
  apply elem_of_cons in Ho as [->|Ho]; [discriminate Hid|].
  apply list_elem_of_singleton in Ho. subst o. discriminate Hc.
Defined.

(** ** The dictionaries *)

Lemma sales_lookup_outside db cid ids since pid :
  pid ∉ ids ->
  dict_of_rows (sales_since db cid ids since) !! pid = None.
Proof.
  intros Hn. unfold sales_since.
  rewrite (dict_of_rows_keyed
    (fun pid => sum_Z (oi_quantity <$>
       filter (fun oi => oi_product_id oi = pid) (sold_items db cid ids since)))).
  rewrite decide_False; [done|].
  rewrite elem_of_remove_dups, list_elem_of_fmap. intros (oi & -> & Hoi).
  unfold sold_items in Hoi. apply list_elem_of_bind in Hoi as (oi' & H & _).
  apply list_elem_of_bind in H as (o & H & _).
  case_decide as Hd; [|by apply elem_of_nil in H].
  apply list_elem_of_singleton in H as ->. tauto.
Qed.

(** X11.  The batched sales query is sound: read with a default of 0, the
    dictionary built from the grouped rows gives, for every listed
    product, the sum of the quantities of the company's order lines of
    that product created at or after the window start; a product has a
    key only if it has such a line, and unlisted products have none. *)
Theorem sales_dictionary_reads_window_totals db cid ids since pid :
  let d := dict_of_rows (sales_since db cid ids since) in
  (pid ∈ ids -> dict_get0 d pid = window_sales db cid since pid)
  /\ (is_Some (d !! pid) ->
      pid ∈ ids
      /\ exists oi, oi ∈ window_items db cid since /\ oi_product_id oi = pid)
  /\ (pid ∉ ids -> dict_get0 d pid = 0).
Proof.
  intros d. split; [apply sales_lookup|]. split.
  - intros Hs.
    destruct (decide (pid ∈ ids)) as [Hin|Hn].
    2: { unfold d in Hs. rewrite sales_lookup_outside in Hs by done.
         by destruct Hs. }
    split; [done|]. unfold d, sales_since in Hs.
    rewrite (dict_of_rows_keyed
      (fun pid => sum_Z (oi_quantity <$>
         filter (fun oi => oi_product_id oi = pid) (sold_items db cid ids since))))
      in Hs.
    case_decide as Hk; [|by destruct Hs].
    apply elem_of_remove_dups, list_elem_of_fmap in Hk as (oi & -> & Hoi).
    exists oi. split; [|done].
    assert (Hf : oi ∈ filter (fun x => oi_product_id x = oi_product_id oi)
                        (sold_items db cid ids since))
      by by apply list_elem_of_filter.
    rewrite sold_items_filter in Hf by done.
    by apply list_elem_of_filter in Hf as [_ Hf].
  - intros Hn. unfold dict_get0, d. by rewrite sales_lookup_outside.
Qed.

Lemma sales_dictionary_reads_window_totals_witness :
  dict_get0 (dict_of_rows (sales_since demo_db 1 [100; 102]
                             (activity_since source_config (100 * day)))) 102
  = window_sales demo_db 1 (activity_since source_config (100 * day)) 102.
Proof.
  apply (proj1 (sales_dictionary_reads_window_totals demo_db 1 [100; 102]
                  (activity_since source_config (100 * day)) 102)).
  right. left.
Defined.

(** X12.  The entry the supplier map keeps for a product depends only on
    that product's own links and their relative order: links of other
    products, wherever they are interleaved, change nothing.  The product
    has an entry iff it has a link, and the entry is flagged primary iff
    one of its links is. *)
Theorem supplier_entry_depends_on_own_links rows rows' p :
  links_of p rows = links_of p rows' ->
  build_supplier_map rows !! p = build_supplier_map rows' !! p
  /\ (is_Some (build_supplier_map rows !! p) <-> links_of p rows <> [])
  /\ (forall entry,
        build_supplier_map rows !! p = Some entry ->
        (se_is_primary entry = true
         <-> exists r, r ∈ links_of p rows /\ row_is_primary r = true)).
Proof.
  intros Hl. rewrite !supplier_map_lookup, <- Hl. split; [done|]. split.
  - destruct (preferred_link (links_of p rows)) as [r|] eqn:Hr; simpl.
    + split; [|by eexists]. intros _ Hnil. by rewrite Hnil in Hr.
    + apply preferred_link_None in Hr. rewrite Hr. split; [by intros [? ?]|done].
  - intros entry Hentry.
    destruct (preferred_link (links_of p rows)) as [r|] eqn:Hr; [|done].
    injection Hentry as <-. rewrite entry_of_row_primary.
    apply preferred_link_Some in Hr as [Hin Hprim]. split.
    + intros Hp. by exists r.
    + done.
Qed.

Lemma supplier_entry_depends_on_own_links_witness :
  build_supplier_map demo_links !! 102
  = build_supplier_map
      [ (102, 7, "Acme", "sales@acme.test", false);
        (102, 8, "Bolt", "hi@bolt.test", true);
        (102, 6, "Dyn", "dyn@dyn.test", true);
        (100, 9, "Core", "core@core.test", false) ] !! 102.
Proof.
  apply (supplier_entry_depends_on_own_links demo_links
           [ (102, 7, "Acme", "sales@acme.test", false);
             (102, 8, "Bolt", "hi@bolt.test", true);
             (102, 6, "Dyn", "dyn@dyn.test", true);
             (100, 9, "Core", "core@core.test", false) ] 102).
  reflexivity.
Defined.
